(** * Blog-Website-Flask: the request handlers of [main.py] over their tables

    The three tables of [main.py] ([users], [blog_posts], [comments]) are
    lists of rows in storage order, the Flask session of the client is a
    record, and every view function is a computation in a small monad that
    threads both and may stop early with an HTTP error, as [abort],
    [db.get_or_404] and an uncaught [IntegrityError] do in the source. *)

From Stdlib Require Import ZArith List String Ascii Bool Lia.
Import ListNotations.

Local Open Scope string_scope.
Local Open Scope list_scope.
Local Open Scope Z_scope.

(** ** Rows of the tables (CONFIGURE TABLES) *)

Module User.
Record t : Type := mk
  { id : Z;
    name : string;
    email : string;     (* unique=True *)
    password : string }.
End User.

Module BlogPost.
Record t : Type := mk
  { id : Z;
    author_id : option Z;   (* ForeignKey("users.id"), nullable *)
    title : string;         (* unique=True *)
    subtitle : string;
    date : string;
    body : string;
    img_url : string }.
End BlogPost.

Module Comment.
Record t : Type := mk
  { id : Z;
    author_id : option Z;   (* ForeignKey("users.id"), nullable *)
    post_id : option Z;     (* ForeignKey("blog_posts.id"), nullable *)
    text : string }.
End Comment.

Record Database : Type := mkDatabase
  { users : list User.t;
    blog_posts : list BlogPost.t;
    comments : list Comment.t }.

(** The part of the Flask session the handlers touch: the id that
    [login_user] stores and the messages queued by [flash].  The templates
    that display the messages are not part of this development. *)
Record Session : Type := mkSession
  { session_user_id : option Z;
    session_flashes : list string }.

Record State : Type := mkState
  { db : Database;
    session : Session }.

Definition empty_db : Database := mkDatabase [] [] [].
Definition anonymous_session : Session := mkSession None [].

(** [db.create_all()] on a fresh [posts.db], first visit of a client. *)
Definition initial_state : State := mkState empty_db anonymous_session.

(** ** Forms ([forms.py] is not part of the sources: only the fields that
    [main.py] reads are recorded, and validation is a parameter) *)

Record RegisterForm : Type := mkRegisterForm
  { reg_name : string; reg_email : string; reg_password : string }.

Record LoginForm : Type := mkLoginForm
  { login_email : string; login_password : string }.

Record CommentForm : Type := mkCommentForm
  { comment : string }.

Record CreatePostForm : Type := mkCreatePostForm
  { form_title : string;
    form_subtitle : string;
    form_img_url : string;
    form_body : string }.

Inductive Request (F : Type) : Type :=
| GET : Request F
| POST : F -> Request F.
Arguments GET {F}.
Arguments POST {F} _.

(** ** Responses *)

Inductive Endpoint : Type :=
| url_login
| url_get_all_posts
| url_show_post (post_id : Z).

Inductive Page : Type :=
| register_html (form : option RegisterForm)
| login_html (form : option LoginForm)
| index_html (all_posts : list BlogPost.t)
| post_html (post : BlogPost.t) (form : option CommentForm)
    (current_user : option User.t) (comments : list Comment.t)
| make_post_html (form : option CreatePostForm) (is_edit : bool)
| about_html
| contact_html.

Inductive Response : Type :=
| redirect (location : Endpoint)
| render_template (page : Page)
| HTTPError (code : Z).

(** ** The collaborators that [main.py] imports *)

Class Collaborators : Type := mkCollaborators
  { RegisterForm_validate : RegisterForm -> bool;
    LoginForm_validate : LoginForm -> bool;
    CommentForm_validate : CommentForm -> bool;
    CreatePostForm_validate : CreatePostForm -> bool;
    (* werkzeug.security; the last argument is the random salt drawn by
       the call *)
    generate_password_hash : string -> string -> Z -> string -> string;
    check_password_hash : string -> string -> bool }.

(** ** [datetime.date] and [strftime] *)

Module date.
Record t : Type := mk { year : Z; month : Z; day : Z }.
End date.

Definition month_name (m : Z) : string :=
  match m with
  | 1 => "January" | 2 => "February" | 3 => "March" | 4 => "April"
  | 5 => "May" | 6 => "June" | 7 => "July" | 8 => "August"
  | 9 => "September" | 10 => "October" | 11 => "November"
  | 12 => "December"
  | _ => EmptyString
  end.

Definition digit (n : Z) : ascii := ascii_of_nat (48 + Z.to_nat (n mod 10)).

Definition two_digits (n : Z) : string :=
  String (digit (n / 10)) (String (digit n) EmptyString).

Definition four_digits (n : Z) : string :=
  String (digit (n / 1000)) (String (digit (n / 100)) (two_digits n)).

(** The directives of [strftime] that the source uses: [%B] full month
    name, [%d] day of the month on two digits, [%Y] year on four digits;
    any other character is copied. *)
Fixpoint strftime (d : date.t) (format : string) : string :=
  match format with
  | EmptyString => EmptyString
  | String "%" (String "B" rest) => (month_name (date.month d) ++ strftime d rest)%string
  | String "%" (String "d" rest) => (two_digits (date.day d) ++ strftime d rest)%string
  | String "%" (String "Y" rest) => (four_digits (date.year d) ++ strftime d rest)%string
  | String c rest => String c (strftime d rest)
  end.

(** What [date.today()] can return here: a calendar date whose year is
    written with four digits. *)
Definition valid_date (d : date.t) : Prop :=
  1000 <= date.year d <= 9999 /\ 1 <= date.month d <= 12 /\ 1 <= date.day d <= 31.

Definition is_digit (c : ascii) : bool :=
  let n := nat_of_ascii c in (48 <=? n)%nat && (n <=? 57)%nat.

(** The display format "Month DD, YYYY": a full month name, a space, two
    digits, a comma and a space, four digits. *)
Definition month_names : list string :=
  ["January"; "February"; "March"; "April"; "May"; "June"; "July"; "August";
   "September"; "October"; "November"; "December"].

Fixpoint strip_prefix (prefix s : string) : option string :=
  match prefix with
  | EmptyString => Some s
  | String a prefix' =>
      match s with
      | String b s' => if Ascii.eqb a b then strip_prefix prefix' s' else None
      | EmptyString => None
      end
  end.

Definition is_DD_YYYY (s : string) : bool :=
  match s with
  | String " " (String d1 (String d2 (String "," (String " "
      (String y1 (String y2 (String y3 (String y4 EmptyString)))))))) =>
      is_digit d1 && is_digit d2
      && is_digit y1 && is_digit y2 && is_digit y3 && is_digit y4
  | _ => false
  end.

Definition Month_DD_YYYY (s : string) : bool :=
  existsb (fun name =>
             match strip_prefix name s with
             | Some rest => is_DD_YYYY rest
             | None => false
             end)
          month_names.

(** The same format read back, independently of [strftime]: which month
    the name is, and the numbers that the two and the four digits write.
    This is the reading of "Month DD, YYYY" that the stored date of a post
    is checked against. *)
Definition calendar : list (string * Z) :=
  [("January", 1); ("February", 2); ("March", 3); ("April", 4); ("May", 5);
   ("June", 6); ("July", 7); ("August", 8); ("September", 9); ("October", 10);
   ("November", 11); ("December", 12)].

Definition digit_value (c : ascii) : Z := Z.of_nat (nat_of_ascii c) - 48.

Definition read_DD_YYYY (m : Z) (s : string) : option date.t :=
  match s with
  | String " " (String d1 (String d2 (String "," (String " "
      (String y1 (String y2 (String y3 (String y4 EmptyString)))))))) =>
      if is_digit d1 && is_digit d2
         && is_digit y1 && is_digit y2 && is_digit y3 && is_digit y4
      then Some (date.mk (1000 * digit_value y1 + 100 * digit_value y2
                          + 10 * digit_value y3 + digit_value y4)
                         m
                         (10 * digit_value d1 + digit_value d2))
      else None
  | _ => None
  end.

Fixpoint read_Month_DD_YYYY_in (months : list (string * Z)) (s : string) : option date.t :=
  match months with
  | [] => None
  | (name, m) :: rest =>
      match strip_prefix name s with
      | Some tail =>
          match read_DD_YYYY m tail with
          | Some d => Some d
          | None => read_Month_DD_YYYY_in rest s
          end
      | None => read_Month_DD_YYYY_in rest s
      end
  end.

Definition read_Month_DD_YYYY (s : string) : option date.t :=
  read_Month_DD_YYYY_in calendar s.

(** ** The handler monad: state passing, with early exit on an HTTP error *)

Definition M (A : Type) : Type := State -> (A + Response) * State.

Definition ret {A : Type} (a : A) : M A := fun s => (inl a, s).

Definition bind {A B : Type} (m : M A) (k : A -> M B) : M B :=
  fun s =>
    match m s with
    | (inl a, s') => k a s'
    | (inr r, s') => (inr r, s')
    end.

Notation "x <- m ;; k" := (bind m (fun x => k))
  (at level 61, m at next level, right associativity).
Notation "m ;; k" := (bind m (fun _ => k))
  (at level 61, right associativity).

(** [abort(code)]: raises, the rest of the view function is skipped. *)
Definition abort {A : Type} (code : Z) : M A := fun s => (inr (HTTPError code), s).

(** What the client receives and the state the request leaves behind. *)
Definition respond (m : M Response) (s : State) : Response * State :=
  match m s with
  | (inl r, s') => (r, s')
  | (inr r, s') => (r, s')
  end.

(** ** Storage *)

(** An [Integer] primary key on SQLite: one more than the largest key of
    the table, 1 on an empty table. *)
Definition next_id (ids : list Z) : Z := fold_right Z.max 0 ids + 1.

Definition get_User (user_id : Z) (d : Database) : option User.t :=
  find (fun u => User.id u =? user_id) (users d).

Definition get_BlogPost (post_id : Z) (d : Database) : option BlogPost.t :=
  find (fun p => BlogPost.id p =? post_id) (blog_posts d).

(** [db.get_or_404(Model, id)], for an id that SQLite can hold (below
    2^63), as the id of every stored row is; the lookup of a larger id,
    which the driver refuses, is not modelled. *)
Definition get_or_404 {A : Type} (get : Database -> option A) : M A :=
  fun s =>
    match get (db s) with
    | Some row => (inl row, s)
    | None => (inr (HTTPError 404), s)
    end.

(** [db.session.execute(db.select(User).where(User.email == email)).scalar()] *)
Definition select_User_by_email (email : string) : M (option User.t) :=
  fun s => (inl (find (fun u => String.eqb (User.email u) email) (users (db s))), s).

(** [db.session.execute(db.select(BlogPost)).scalars().all()] *)
Definition select_BlogPost_all : M (list BlogPost.t) :=
  fun s => (inl (blog_posts (db s)), s).

Definition refers_to (fk : option Z) (key : Z) : bool :=
  match fk with
  | Some k => k =? key
  | None => false
  end.

(** [db.select(Comment).where(Comment.post_id == post_id)], [.scalars().all()] *)
Definition select_Comment_by_post (post_id : Z) : M (list Comment.t) :=
  fun s =>
    (inl (filter (fun c => refers_to (Comment.post_id c) post_id) (comments (db s))), s).

(** [db.session.add(row); db.session.commit()].  A row that breaks a
    [unique=True] column makes the commit raise [IntegrityError], which no
    handler catches: the request ends in a 500 and nothing is stored. *)
Definition add_User (name email password : string) : M User.t :=
  fun s =>
    let d := db s in
    if existsb (fun u => String.eqb (User.email u) email) (users d)
    then (inr (HTTPError 500), s)
    else
      let new_user := User.mk (next_id (map User.id (users d))) name email password in
      (inl new_user,
       mkState (mkDatabase (users d ++ [new_user]) (blog_posts d) (comments d))
               (session s)).

Definition add_BlogPost (author_id : option Z)
    (title subtitle date body img_url : string) : M BlogPost.t :=
  fun s =>
    let d := db s in
    if existsb (fun p => String.eqb (BlogPost.title p) title) (blog_posts d)
    then (inr (HTTPError 500), s)
    else
      let new_post :=
        BlogPost.mk (next_id (map BlogPost.id (blog_posts d)))
                    author_id title subtitle date body img_url in
      (inl new_post,
       mkState (mkDatabase (users d) (blog_posts d ++ [new_post]) (comments d))
               (session s)).

Definition add_Comment (author_id post_id : option Z) (text : string) : M Comment.t :=
  fun s =>
    let d := db s in
    let new_comment :=
      Comment.mk (next_id (map Comment.id (comments d))) author_id post_id text in
    (inl new_comment,
     mkState (mkDatabase (users d) (blog_posts d) (comments d ++ [new_comment]))
             (session s)).

(** Attribute assignments on a loaded post followed by
    [db.session.commit()]: the row with the post's id is rewritten. *)
Definition update_BlogPost (post : BlogPost.t) : M unit :=
  fun s =>
    let d := db s in
    if existsb (fun p => negb (BlogPost.id p =? BlogPost.id post)
                         && String.eqb (BlogPost.title p) (BlogPost.title post))
               (blog_posts d)
    then (inr (HTTPError 500), s)
    else
      (inl tt,
       mkState (mkDatabase (users d)
                  (map (fun p => if BlogPost.id p =? BlogPost.id post then post else p)
                       (blog_posts d))
                  (comments d))
               (session s)).

(** [db.session.delete(post); db.session.commit()].  The relationship
    [BlogPost.comments] declares no cascade, so the unit of work
    de-associates the comments of the post: their [post_id] becomes NULL
    and the rows stay. *)
Definition orphan (post_id : Z) (c : Comment.t) : Comment.t :=
  if refers_to (Comment.post_id c) post_id
  then Comment.mk (Comment.id c) (Comment.author_id c) None (Comment.text c)
  else c.

Definition delete_BlogPost (post : BlogPost.t) : M unit :=
  fun s =>
    let d := db s in
    (inl tt,
     mkState (mkDatabase (users d)
                (filter (fun p => negb (BlogPost.id p =? BlogPost.id post)) (blog_posts d))
                (map (orphan (BlogPost.id post)) (comments d)))
             (session s)).

(** ** Session (flask, flask_login) *)

Definition flash (message : string) : M unit :=
  fun s =>
    (inl tt,
     mkState (db s)
             (mkSession (session_user_id (session s))
                        (session_flashes (session s) ++ [message]))).

Definition login_user (user : User.t) : M unit :=
  fun s =>
    (inl tt,
     mkState (db s) (mkSession (Some (User.id user)) (session_flashes (session s)))).

(** The user_loader callback. *)
Definition load_user (user_id : Z) : M User.t := get_or_404 (get_User user_id).

(** [current_user]: [None] is flask_login's anonymous user, for which
    [is_authenticated] is false; a stored id goes through [load_user]. *)
Definition current_user : M (option User.t) :=
  fun s =>
    match session_user_id (session s) with
    | None => (inl None, s)
    | Some user_id => bind (load_user user_id) (fun u => ret (Some u)) s
    end.

(** [logout_user()]: flask_login first resolves the user of the session,
    through [load_user] when the session carries an id, and then forgets
    the id. *)
Definition logout_user : M unit :=
  current_user ;;
  (fun s => (inl tt, mkState (db s) (mkSession None (session_flashes (session s))))).

(** [render_template(...)]: flask_login's context processor hands
    [current_user] to every template, so the user of the session is
    resolved, through [load_user], before the page is produced. *)
Definition render (page : Page) : M Response :=
  current_user ;; ret (render_template page).

(** [form.validate_on_submit()]: the request is a POST and the form
    validates; the submitted fields are then read through [.data]. *)
Definition validate_on_submit {F : Type} (validate : F -> bool) (req : Request F) : option F :=
  match req with
  | POST form => if validate form then Some form else None
  | GET => None
  end.

Definition submitted {F : Type} (req : Request F) : option F :=
  match req with
  | POST form => Some form
  | GET => None
  end.

(** ** Start of the application (module level of [main.py]) *)

Definition Environ : Type := list (string * string).

(** [os.environ.get(key)] *)
Fixpoint os_environ_get (environ : Environ) (key : string) : option string :=
  match environ with
  | [] => None
  | (k, v) :: rest => if String.eqb k key then Some v else os_environ_get rest key
  end.

Record Config : Type := mkConfig
  { SECRET_KEY : option string;
    SQLALCHEMY_DATABASE_URI : string }.

Inductive Startup : Type :=
| running (config : Config) (s : State)
| failed (message : string).

(** [app = Flask(__name__)], the two assignments to [app.config] and
    [db.create_all()].  No statement of the module inspects the value
    that [os.environ.get] returned. *)
Definition startup (environ : Environ) : Startup :=
  running (mkConfig (os_environ_get environ "FLASK_KEY") "sqlite:///posts.db")
          initial_state.

(** ** View functions *)

Section Views.
Context {lib : Collaborators}.

(** The decorator: [function] is only reached on the last line. *)
Definition admin_only {Args : Type} (function : Args -> M Response) : Args -> M Response :=
  fun args =>
    user <- current_user ;;
    match user with
    | None => abort 403
    | Some u =>
        if negb (User.id u =? 1) then abort 403
        else function args
    end.

Definition register (salt : string) (req : Request RegisterForm) : M Response :=
  match validate_on_submit RegisterForm_validate req with
  | Some register_form =>
      existing <- select_User_by_email (reg_email register_form) ;;
      match existing with
      | Some _ =>
          flash "You've signed up with this email, log in instead!" ;;
          ret (redirect url_login)
      | None =>
          let hashed_password :=
            generate_password_hash (reg_password register_form) "pbkdf2" 8 salt in
          new_user <- add_User (reg_name register_form) (reg_email register_form)
                               hashed_password ;;
          login_user new_user ;;
          ret (redirect url_get_all_posts)
      end
  | None => render (register_html (submitted req))
  end.

Definition login (req : Request LoginForm) : M Response :=
  match validate_on_submit LoginForm_validate req with
  | Some login_form =>
      entered_user <- select_User_by_email (login_email login_form) ;;
      match entered_user with
      | None =>
          flash "That email does not exist, please try again." ;;
          ret (redirect url_login)
      | Some u =>
          if check_password_hash (User.password u) (login_password login_form)
          then login_user u ;; ret (redirect url_get_all_posts)
          else flash "Incorrect password, please try again." ;;
               ret (redirect url_login)
      end
  | None => render (login_html (submitted req))
  end.

Definition logout : M Response :=
  logout_user ;; ret (redirect url_get_all_posts).

Definition get_all_posts : M Response :=
  posts <- select_BlogPost_all ;;
  render (index_html posts).

Definition show_post (post_id : Z) (req : Request CommentForm) : M Response :=
  requested_post <- get_or_404 (get_BlogPost post_id) ;;
  match validate_on_submit CommentForm_validate req with
  | Some comment_form =>
      user <- current_user ;;
      match user with
      | None =>
          flash "Please log in to live comments on blog posts!" ;;
          ret (redirect url_login)
      | Some u =>
          add_Comment (Some (User.id u)) (Some post_id) (comment comment_form) ;;
          ret (redirect (url_show_post post_id))
      end
  | None =>
      all_comments <- select_Comment_by_post post_id ;;
      user <- current_user ;;
      ret (render_template (post_html requested_post (submitted req) user all_comments))
  end.

(** [add_new_post] before decoration.  [author=current_user] needs a
    stored user: the anonymous user is not a mapped row and the
    assignment raises. *)
Definition add_new_post_wrapped (args : date.t * Request CreatePostForm) : M Response :=
  let (today, req) := args in
  match validate_on_submit CreatePostForm_validate req with
  | Some form =>
      user <- current_user ;;
      match user with
      | None => abort 500
      | Some u =>
          add_BlogPost (Some (User.id u)) (form_title form) (form_subtitle form)
                       (strftime today "%B %d, %Y") (form_body form) (form_img_url form) ;;
          ret (redirect url_get_all_posts)
      end
  | None => render (make_post_html (submitted req) false)
  end.

Definition add_new_post (today : date.t) (req : Request CreatePostForm) : M Response :=
  admin_only add_new_post_wrapped (today, req).

Definition edit_post_wrapped (args : Z * Request CreatePostForm) : M Response :=
  let (post_id, req) := args in
  post <- get_or_404 (get_BlogPost post_id) ;;
  let edit_form :=
    match req with
    | POST form => form
    | GET => mkCreatePostForm (BlogPost.title post) (BlogPost.subtitle post)
                              (BlogPost.img_url post) (BlogPost.body post)
    end in
  match validate_on_submit CreatePostForm_validate req with
  | Some form =>
      user <- current_user ;;
      match user with
      | None => abort 500
      | Some u =>
          update_BlogPost
            (BlogPost.mk (BlogPost.id post) (Some (User.id u)) (form_title form)
                         (form_subtitle form) (BlogPost.date post) (form_body form)
                         (form_img_url form)) ;;
          ret (redirect (url_show_post (BlogPost.id post)))
      end
  | None => render (make_post_html (Some edit_form) true)
  end.

Definition edit_post (post_id : Z) (req : Request CreatePostForm) : M Response :=
  admin_only edit_post_wrapped (post_id, req).

Definition delete_post_wrapped (post_id : Z) : M Response :=
  post_to_delete <- get_or_404 (get_BlogPost post_id) ;;
  delete_BlogPost post_to_delete ;;
  ret (redirect url_get_all_posts).

Definition delete_post (post_id : Z) : M Response :=
  admin_only delete_post_wrapped post_id.

Definition about : M Response := render about_html.

Definition contact : M Response := render contact_html.

(** ** The routes, and the states the application can be in *)

Inductive Call : Type :=
| call_register (salt : string) (req : Request RegisterForm)
| call_login (req : Request LoginForm)
| call_logout
| call_get_all_posts
| call_show_post (post_id : Z) (req : Request CommentForm)
| call_add_new_post (today : date.t) (req : Request CreatePostForm)
| call_edit_post (post_id : Z) (req : Request CreatePostForm)
| call_delete_post (post_id : Z)
| call_about
| call_contact.

Definition view (c : Call) : M Response :=
  match c with
  | call_register salt req => register salt req
  | call_login req => login req
  | call_logout => logout
  | call_get_all_posts => get_all_posts
  | call_show_post post_id req => show_post post_id req
  | call_add_new_post today req => add_new_post today req
  | call_edit_post post_id req => edit_post post_id req
  | call_delete_post post_id => delete_post post_id
  | call_about => about
  | call_contact => contact
  end.

Definition handle (c : Call) (s : State) : Response * State := respond (view c) s.

Definition serve (calls : list Call) (s : State) : State :=
  fold_left (fun s c => snd (handle c s)) calls s.

Inductive reachable : State -> Prop :=
| reachable_initial : reachable initial_state
| reachable_handle (c : Call) (s : State) :
    reachable s -> reachable (snd (handle c s)).

End Views.

(** ** Referential integrity of the tables *)

Definition user_ids (d : Database) : list Z := map User.id (users d).
Definition post_ids (d : Database) : list Z := map BlogPost.id (blog_posts d).

(** A foreign key is live when it is set and some row carries that key. *)
Definition live_in (keys : list Z) (fk : option Z) : bool := existsb (refers_to fk) keys.

Definition cleared_or_live_in (keys : list Z) (fk : option Z) : bool :=
  match fk with
  | None => true
  | Some _ => live_in keys fk
  end.

Definition post_author_live (d : Database) (p : BlogPost.t) : bool :=
  live_in (user_ids d) (BlogPost.author_id p).

Definition comment_author_live (d : Database) (c : Comment.t) : bool :=
  live_in (user_ids d) (Comment.author_id c).

(** Every comment references a live post and a live user, every post a
    live user. *)
Definition references_live (d : Database) : bool :=
  forallb (fun c => live_in (post_ids d) (Comment.post_id c) && comment_author_live d c)
          (comments d)
  && forallb (post_author_live d) (blog_posts d).

(** The same, except that the post reference of a comment may have been
    cleared. *)
Definition references_live_or_cleared (d : Database) : bool :=
  forallb (fun c => cleared_or_live_in (post_ids d) (Comment.post_id c)
                    && comment_author_live d c)
          (comments d)
  && forallb (post_author_live d) (blog_posts d).

(** The same property, stated row by row. *)
Definition integrity (d : Database) : Prop :=
  (forall c, In c (comments d) ->
     cleared_or_live_in (post_ids d) (Comment.post_id c) = true
     /\ live_in (user_ids d) (Comment.author_id c) = true)
  /\ (forall p, In p (blog_posts d) ->
        live_in (user_ids d) (BlogPost.author_id p) = true).

(** The id kept in the session, if any, is the key of a stored user. *)
Definition session_live (s : State) : Prop :=
  match session_user_id (session s) with
  | None => True
  | Some user_id => exists u, get_User user_id (db s) = Some u
  end.

(** What the columns declare: primary keys, and the two [unique=True]
    columns, hold pairwise distinct values. *)
Definition keys_unique (d : Database) : Prop :=
  NoDup (map User.id (users d))
  /\ NoDup (map User.email (users d))
  /\ NoDup (map BlogPost.id (blog_posts d))
  /\ NoDup (map BlogPost.title (blog_posts d))
  /\ NoDup (map Comment.id (comments d)).

(** Keys handed out one after the other, starting at 1. *)
Definition sequential (ids : list Z) : Prop :=
  ids = map Z.of_nat (seq 1 (List.length ids)).

(** ** Concrete collaborators and requests, for the examples below *)

Definition ends_with (s suffix : string) : bool :=
  let n := String.length s in
  let k := String.length suffix in
  (k <=? n)%nat && String.eqb (substring (n - k) k s) suffix.

Definition required (field : string) : bool := negb (String.eqb field EmptyString).

Definition sample_lib : Collaborators :=
  mkCollaborators
    (fun f => required (reg_name f) && required (reg_email f) && required (reg_password f))
    (fun f => required (login_email f) && required (login_password f))
    (fun f => required (comment f))
    (fun f => required (form_title f) && required (form_subtitle f)
              && required (form_img_url f) && required (form_body f))
    (fun password method _ salt => (method ++ "$" ++ salt ++ "$" ++ password)%string)
    (fun pwhash password => ends_with pwhash ("$" ++ password)%string).

Definition sample_admin : RegisterForm :=
  mkRegisterForm "Kyrylo Yefremov" "admin@gmail.com" "123".

Definition sample_reader : RegisterForm :=
  mkRegisterForm "Reader" "reader@gmail.com" "abc".

Definition sample_post : CreatePostForm :=
  mkCreatePostForm "Blog Post 1" "The subtitle" "https:img_url.com" "bla bla bla....".

Definition sample_post_2 : CreatePostForm :=
  mkCreatePostForm "Blog Post 2" "Another subtitle" "https:img_url.com/2" "more text".

Definition sample_today : date.t := date.mk 2024 4 5.

(** The admin registers, writes a post and comments on it. *)
Definition sample_history : list Call :=
  [ call_register "c2FsdA" (POST sample_admin);
    call_add_new_post sample_today (POST sample_post);
    call_show_post 1 (POST (mkCommentForm "First!")) ].

Definition sample_state : State := serve (lib := sample_lib) sample_history initial_state.

(** Then registers a second user, who is left logged in. *)
Definition sample_state_reader : State :=
  serve (lib := sample_lib)
        [ call_logout; call_register "cmVhZA" (POST sample_reader) ] sample_state.

(** Two posts, the admin logged in. *)
Definition sample_state_two_posts : State :=
  serve (lib := sample_lib)
        [ call_add_new_post sample_today (POST sample_post_2) ] sample_state.

(** The admin has deleted the only post; its comment is still stored. *)
Definition sample_state_deleted : State :=
  serve (lib := sample_lib) [ call_delete_post 1 ] sample_state.

(** * Properties *)

(** ** Keys and foreign keys *)

Lemma next_id_above (ids : list Z) (i : Z) : In i ids -> i < next_id ids.
Proof.
  unfold next_id. induction ids as [|j ids IH]; simpl; intros Hin.
  - contradiction.
  - destruct Hin as [-> | Hin]; [lia | specialize (IH Hin); lia].
Qed.

Lemma next_id_fresh (ids : list Z) : ~ In (next_id ids) ids.
Proof. intros Hin. apply next_id_above in Hin. lia. Qed.

Lemma next_id_positive (ids : list Z) : 1 <= next_id ids.
Proof. unfold next_id. induction ids; simpl; lia. Qed.

Lemma live_in_spec (keys : list Z) (fk : option Z) :
  live_in keys fk = true <-> exists k, fk = Some k /\ In k keys.
Proof.
  unfold live_in. rewrite existsb_exists. split.
  - intros [k [Hin Hk]]. destruct fk as [k'|]; simpl in Hk; [|discriminate].
    apply Z.eqb_eq in Hk. subst. eauto.
  - intros [k [-> Hin]]. exists k. split; [assumption | apply Z.eqb_refl].
Qed.

Lemma live_in_incl (keys keys' : list Z) (fk : option Z) :
  incl keys keys' -> live_in keys fk = true -> live_in keys' fk = true.
Proof.
  rewrite !live_in_spec. intros Hincl [k [Hfk Hin]]. exists k. auto.
Qed.

Lemma cleared_or_live_in_incl (keys keys' : list Z) (fk : option Z) :
  incl keys keys' ->
  cleared_or_live_in keys fk = true -> cleared_or_live_in keys' fk = true.
Proof.
  destruct fk; simpl; [apply live_in_incl | trivial].
Qed.

Lemma live_in_cleared_or_live_in (keys : list Z) (fk : option Z) :
  live_in keys fk = true -> cleared_or_live_in keys fk = true.
Proof. destruct fk; simpl; trivial. Qed.

Lemma get_User_In (user_id : Z) (d : Database) (u : User.t) :
  get_User user_id d = Some u -> In u (users d) /\ User.id u = user_id.
Proof.
  unfold get_User. intros H. apply find_some in H. destruct H as [Hin Heq].
  apply Z.eqb_eq in Heq. auto.
Qed.

Lemma get_BlogPost_In (post_id : Z) (d : Database) (p : BlogPost.t) :
  get_BlogPost post_id d = Some p -> In p (blog_posts d) /\ BlogPost.id p = post_id.
Proof.
  unfold get_BlogPost. intros H. apply find_some in H. destruct H as [Hin Heq].
  apply Z.eqb_eq in Heq. auto.
Qed.

Lemma get_User_live (user_id : Z) (d : Database) (u : User.t) :
  get_User user_id d = Some u -> live_in (user_ids d) (Some (User.id u)) = true.
Proof.
  intros H. apply get_User_In in H. destruct H as [Hin _].
  apply live_in_spec. exists (User.id u). split; [reflexivity|].
  unfold user_ids. apply in_map. assumption.
Qed.

Lemma get_BlogPost_live (post_id : Z) (d : Database) (p : BlogPost.t) :
  get_BlogPost post_id d = Some p -> live_in (post_ids d) (Some post_id) = true.
Proof.
  intros H. apply get_BlogPost_In in H. destruct H as [Hin Hid].
  apply live_in_spec. exists post_id. split; [reflexivity|].
  unfold post_ids. rewrite <- Hid. apply in_map. assumption.
Qed.

(** ** The invariant, row by row *)

Lemma references_live_or_cleared_spec (d : Database) :
  references_live_or_cleared d = true <-> integrity d.
Proof.
  unfold references_live_or_cleared, integrity, post_author_live, comment_author_live.
  rewrite andb_true_iff, !forallb_forall. split.
  - intros [Hc Hp]. split; [|exact Hp].
    intros c Hin. apply andb_true_iff. apply Hc. assumption.
  - intros [Hc Hp]. split; [|exact Hp].
    intros c Hin. apply andb_true_iff. apply Hc. assumption.
Qed.

Lemma integrity_add_User (d : Database) (u : User.t) :
  integrity d ->
  integrity (mkDatabase (users d ++ [u]) (blog_posts d) (comments d)).
Proof.
  intros [Hc Hp].
  assert (Hincl : incl (user_ids d) (map User.id (users d ++ [u]))).
  { unfold user_ids. rewrite map_app. apply incl_appl, incl_refl. }
  split; simpl.
  - intros c Hin. destruct (Hc c Hin) as [H1 H2]. split; [exact H1|].
    unfold user_ids; simpl. eapply live_in_incl; eassumption.
  - intros p Hin. unfold user_ids; simpl. eapply live_in_incl; eauto.
Qed.

Lemma integrity_add_BlogPost (d : Database) (p : BlogPost.t) :
  integrity d ->
  live_in (user_ids d) (BlogPost.author_id p) = true ->
  integrity (mkDatabase (users d) (blog_posts d ++ [p]) (comments d)).
Proof.
  intros [Hc Hp] Hlive. split; simpl.
  - intros c Hin. destruct (Hc c Hin) as [H1 H2]. split; [|exact H2].
    eapply cleared_or_live_in_incl; [|exact H1].
    unfold post_ids; simpl. rewrite map_app. apply incl_appl, incl_refl.
  - intros q Hin. apply in_app_or in Hin. destruct Hin as [Hin | [<- | []]]; auto.
Qed.

Lemma integrity_add_Comment (d : Database) (c : Comment.t) :
  integrity d ->
  live_in (post_ids d) (Comment.post_id c) = true ->
  live_in (user_ids d) (Comment.author_id c) = true ->
  integrity (mkDatabase (users d) (blog_posts d) (comments d ++ [c])).
Proof.
  intros [Hc Hp] Hpost Huser. split; simpl.
  - intros c' Hin. apply in_app_or in Hin. destruct Hin as [Hin | [<- | []]].
    + apply Hc. assumption.
    + split; [apply live_in_cleared_or_live_in|]; assumption.
  - exact Hp.
Qed.

Lemma map_id_update (post : BlogPost.t) (posts : list BlogPost.t) :
  map BlogPost.id
      (map (fun p => if BlogPost.id p =? BlogPost.id post then post else p) posts)
  = map BlogPost.id posts.
Proof.
  rewrite map_map. apply map_ext. intros p.
  destruct (BlogPost.id p =? BlogPost.id post) eqn:E; [|reflexivity].
  apply Z.eqb_eq in E. congruence.
Qed.

Lemma integrity_update_BlogPost (d : Database) (post : BlogPost.t) :
  integrity d ->
  live_in (user_ids d) (BlogPost.author_id post) = true ->
  integrity (mkDatabase (users d)
               (map (fun p => if BlogPost.id p =? BlogPost.id post then post else p)
                    (blog_posts d))
               (comments d)).
Proof.
  intros [Hc Hp] Hlive. split; simpl.
  - intros c Hin. unfold post_ids; simpl. rewrite map_id_update. apply Hc. assumption.
  - intros q Hin. apply in_map_iff in Hin. destruct Hin as [p [Hq Hin]].
    destruct (BlogPost.id p =? BlogPost.id post); subst; auto.
Qed.

Lemma integrity_delete_BlogPost (d : Database) (post_id : Z) :
  integrity d ->
  integrity (mkDatabase (users d)
               (filter (fun p => negb (BlogPost.id p =? post_id)) (blog_posts d))
               (map (orphan post_id) (comments d))).
Proof.
  intros [Hc Hp]. split; simpl.
  - intros c' Hin. apply in_map_iff in Hin. destruct Hin as [c [<- Hin]].
    destruct (Hc c Hin) as [H1 H2]. unfold orphan.
    destruct (refers_to (Comment.post_id c) post_id) eqn:E; simpl.
    + split; [reflexivity | exact H2].
    + split; [|exact H2].
      destruct (Comment.post_id c) as [k|]; simpl in *; [|reflexivity].
      apply live_in_spec in H1. destruct H1 as [k' [Hk Hin']]. inversion Hk; subst k'.
      apply live_in_spec. exists k. split; [reflexivity|].
      unfold post_ids in *; simpl. apply in_map_iff in Hin'.
      destruct Hin' as [p [Hid Hinp]]. apply in_map_iff. exists p. split; [exact Hid|].
      apply filter_In. split; [exact Hinp|]. rewrite Hid, E. reflexivity.
  - intros p Hin. apply filter_In in Hin. apply Hp. tauto.
Qed.

(** ** Running a view function *)

Ltac unfold_views :=
  unfold handle, respond, view, register, login, logout, get_all_posts, show_post,
    add_new_post, edit_post, delete_post, about, contact, admin_only,
    add_new_post_wrapped, edit_post_wrapped, delete_post_wrapped,
    logout_user, render,
    current_user, load_user, get_or_404, select_User_by_email,
    select_BlogPost_all, select_Comment_by_post, add_User, add_BlogPost,
    add_Comment, update_BlogPost, delete_BlogPost, flash, login_user,
    validate_on_submit, abort, bind, ret in *.

Ltac break_match :=
  match goal with
  | |- context [match ?x with _ => _ end] =>
      lazymatch x with
      | context [match _ with _ => _ end] => fail
      | _ => destruct x eqn:?; simpl
      end
  end.

Section Integrity.
Context {lib : Collaborators}.

Lemma handle_integrity (c : Call) (s : State) :
  integrity (db s) -> integrity (db (snd (handle c s))).
Proof.
  intros Hinv. destruct c; unfold_views; simpl; repeat break_match;
    simpl; try assumption.
  - apply integrity_add_User. assumption.
  - apply integrity_add_Comment; simpl; [assumption| |].
    + eapply get_BlogPost_live. unfold get_BlogPost. eassumption.
    + eapply get_User_live. unfold get_User. eassumption.
  - apply integrity_add_BlogPost; simpl; [assumption|].
    eapply get_User_live. unfold get_User. eassumption.
  - match goal with
    | |- integrity (mkDatabase _ (map (fun p => if _ then ?post else p) _) _) =>
        apply (integrity_update_BlogPost (db s) post)
    end; simpl; [assumption|].
    eapply get_User_live. unfold get_User. eassumption.
  - apply integrity_delete_BlogPost. assumption.
Qed.

Lemma reachable_serve (calls : list Call) (s : State) :
  reachable s -> reachable (serve calls s).
Proof.
  revert s. induction calls as [|c calls IH]; simpl; intros s Hs.
  - exact Hs.
  - apply IH. apply reachable_handle. exact Hs.
Qed.

Lemma reachable_integrity (s : State) : reachable s -> integrity (db s).
Proof.
  induction 1 as [|c s Hs IH].
  - split; simpl; intros ? [].
  - apply handle_integrity. exact IH.
Qed.

(** ** Referential integrity (C1) *)

(** C1, as amended.  In every state the application can reach, every
    comment references a live user, every post references a live user,
    and the post reference of every comment is either cleared or a live
    post; deleting a post keeps it so. *)
Theorem reachable_references_live_or_cleared (s : State) (Hs : reachable s) :
  references_live_or_cleared (db s) = true
  /\ forall post_id,
       references_live_or_cleared (db (snd (handle (call_delete_post post_id) s))) = true.
Proof.
  split; [|intros post_id]; apply references_live_or_cleared_spec.
  - apply reachable_integrity. exact Hs.
  - apply handle_integrity, reachable_integrity. exact Hs.
Qed.

End Integrity.

Lemma reachable_references_live_or_cleared_witness :
  reachable (lib := sample_lib) sample_state
  /\ references_live_or_cleared (db sample_state) = true
  /\ references_live_or_cleared
       (db (snd (handle (lib := sample_lib) (call_delete_post 1) sample_state))) = true.
Proof.
  assert (Hs : reachable (lib := sample_lib) sample_state).
  { apply reachable_serve, reachable_initial. }
  split; [exact Hs|].
  destruct (reachable_references_live_or_cleared (lib := sample_lib) sample_state Hs)
    as [H1 H2].
  split; [exact H1 | exact (H2 1)].
Defined.

(** C1, as stated, fails: after the admin has registered, written a post
    and commented on it, deleting the post leaves the comment in the
    table with no post behind it. *)
Lemma delete_post_leaves_comment :
  reachable (lib := sample_lib) sample_state
  /\ references_live (db sample_state) = true
  /\ handle (lib := sample_lib) (call_delete_post 1) sample_state
     = (redirect url_get_all_posts,
        mkState (mkDatabase (users (db sample_state)) []
                            [Comment.mk 1 (Some 1) None "First!"])
                (session sample_state))
  /\ reachable (lib := sample_lib)
       (snd (handle (lib := sample_lib) (call_delete_post 1) sample_state))
  /\ references_live
       (db (snd (handle (lib := sample_lib) (call_delete_post 1) sample_state))) = false.
Proof.
  assert (Hs : reachable (lib := sample_lib) sample_state).
  { apply reachable_serve, reachable_initial. }
  split; [exact Hs|].
  split; [reflexivity|].
  split; [reflexivity|].
  split; [apply reachable_handle; exact Hs | reflexivity].
Qed.

(** ** Start-up (C2) *)

(** C2, as amended.  When [FLASK_KEY] is absent from the environment the
    application starts all the same, with [SECRET_KEY] left unset: there
    is no failure at start-up and no default is substituted. *)
Theorem startup_without_secret_key (environ : Environ)
    (Habsent : os_environ_get environ "FLASK_KEY" = None) :
  startup environ = running (mkConfig None "sqlite:///posts.db") initial_state.
Proof. unfold startup. rewrite Habsent. reflexivity. Qed.

Lemma startup_without_secret_key_witness :
  os_environ_get [("PATH", "/usr/bin")] "FLASK_KEY" = None
  /\ startup [("PATH", "/usr/bin")]
     = running (mkConfig None "sqlite:///posts.db") initial_state.
Proof.
  split; [reflexivity|].
  apply (startup_without_secret_key [("PATH", "/usr/bin")]). reflexivity.
Defined.

(** C2, as stated, fails: with an empty environment the start-up does
    not fail. *)
Lemma startup_does_not_fail_fast :
  os_environ_get [] "FLASK_KEY" = None
  /\ startup [] = running (mkConfig None "sqlite:///posts.db") initial_state
  /\ forall message, startup [] <> failed message.
Proof.
  split; [reflexivity|]. split; [reflexivity|].
  intros message H. discriminate H.
Qed.

(** ** The session names a stored user *)

Lemma find_snoc {A : Type} (f : A -> bool) (l : list A) (x : A) :
  find f (l ++ [x])
  = match find f l with
    | Some y => Some y
    | None => if f x then Some x else None
    end.
Proof.
  induction l as [|a l IH]; simpl; [reflexivity|].
  destruct (f a); [reflexivity | exact IH].
Qed.

Lemma In_get_User (d : Database) (u : User.t) :
  In u (users d) -> exists u', get_User (User.id u) d = Some u'.
Proof.
  intros Hin. unfold get_User.
  destruct (find (fun u0 => User.id u0 =? User.id u) (users d)) as [u'|] eqn:E.
  - exists u'. reflexivity.
  - apply (find_none _ _ E) in Hin. rewrite Z.eqb_refl in Hin. discriminate.
Qed.

Lemma fold_max_seq (n start : nat) :
  fold_right Z.max 0 (map Z.of_nat (seq start n))
  = match n with
    | O => 0
    | S n' => Z.of_nat (start + n')
    end.
Proof.
  revert start. induction n as [|n IH]; intros start; simpl; [reflexivity|].
  rewrite IH. destruct n; lia.
Qed.

Lemma next_id_sequential (ids : list Z) :
  sequential ids -> next_id ids = Z.of_nat (S (List.length ids)).
Proof.
  unfold sequential, next_id. intros H. rewrite H at 1. rewrite fold_max_seq.
  destruct (List.length ids); lia.
Qed.

Lemma sequential_snoc (ids : list Z) :
  sequential ids -> sequential (ids ++ [next_id ids]).
Proof.
  intros H. unfold sequential. rewrite (next_id_sequential ids H).
  rewrite length_app. simpl. rewrite Nat.add_1_r, seq_S, map_app. simpl.
  rewrite <- H. reflexivity.
Qed.

Lemma nth_error_sequential (start len i : nat) (k : Z) :
  nth_error (map Z.of_nat (seq start len)) i = Some k -> k = Z.of_nat (start + i).
Proof.
  revert start i. induction len as [|len IH]; intros start i; simpl.
  - destruct i; discriminate.
  - destruct i as [|i]; simpl.
    + intros H. inversion H. f_equal. lia.
    + intros H. apply IH in H. rewrite H. f_equal. lia.
Qed.

Section Guard.
Context {lib : Collaborators}.

Lemma handle_session_live (c : Call) (s : State) :
  session_live s -> session_live (snd (handle c s)).
Proof.
  destruct s as [d [uid fl]]. unfold session_live, get_User.
  destruct c; unfold_views; simpl; repeat break_match; simpl; try tauto; intros _.
  1, 2: rewrite find_snoc;
    match goal with
    | |- context [match ?x with _ => _ end] => destruct x; simpl
    end; [eauto | rewrite Z.eqb_refl; eauto].
  all: match goal with
       | H : find _ (users ?d0) = Some ?t |- _ =>
           apply find_some in H; destruct H as [H _];
           apply (In_get_User d0 t H)
       end.
Qed.

Lemma reachable_session_live (s : State) : reachable s -> session_live s.
Proof.
  induction 1 as [|c s Hs IH]; [exact I | apply handle_session_live; exact IH].
Qed.

Lemma handle_users_sequential (c : Call) (s : State) :
  sequential (user_ids (db s)) -> sequential (user_ids (db (snd (handle c s)))).
Proof.
  destruct s as [d [uid fl]]. unfold user_ids.
  destruct c; unfold_views; simpl; repeat break_match; simpl; try tauto.
  intros H. rewrite map_app. simpl. apply sequential_snoc. exact H.
Qed.

Lemma reachable_users_sequential (s : State) :
  reachable s -> sequential (user_ids (db s)).
Proof.
  induction 1 as [|c s Hs IH]; [reflexivity | apply handle_users_sequential; exact IH].
Qed.

(** What the decorator does, by the caller. *)
Lemma admin_only_anonymous {Args : Type} (function : Args -> M Response)
    (args : Args) (s : State) :
  session_user_id (session s) = None ->
  admin_only function args s = abort 403 s.
Proof. intros H. unfold admin_only, current_user, bind. rewrite H. reflexivity. Qed.

Lemma admin_only_user {Args : Type} (function : Args -> M Response)
    (args : Args) (s : State) (user_id : Z) (u : User.t) :
  session_user_id (session s) = Some user_id ->
  get_User user_id (db s) = Some u ->
  admin_only function args s
  = if User.id u =? 1 then function args s else abort 403 s.
Proof.
  intros Hs Hu. unfold admin_only, current_user, load_user, get_or_404, bind, ret.
  rewrite Hs, Hu. destruct (User.id u =? 1); reflexivity.
Qed.

(** ** The guard (C3) *)

(** C3.  In every reachable state, when the caller is not authenticated
    or is authenticated under an id other than 1, the decorator answers
    403 whatever function it wraps, without running it, and [/new-post],
    [/edit-post/<id>] and [/delete/<id>] answer 403 and leave users,
    posts, comments and session as they were. *)
Theorem admin_only_forbidden (s : State) (Hs : reachable s)
    (Hcaller : session_user_id (session s) <> Some 1) :
  (forall (Args : Type) (function : Args -> M Response) (args : Args),
      admin_only function args s = (inr (HTTPError 403), s))
  /\ (forall today req, handle (call_add_new_post today req) s = (HTTPError 403, s))
  /\ (forall post_id req, handle (call_edit_post post_id req) s = (HTTPError 403, s))
  /\ (forall post_id, handle (call_delete_post post_id) s = (HTTPError 403, s)).
Proof.
  assert (Hguard : forall (Args : Type) (function : Args -> M Response) (args : Args),
             admin_only function args s = (inr (HTTPError 403), s)).
  { intros Args function args.
    pose proof (reachable_session_live s Hs) as Hlive. unfold session_live in Hlive.
    destruct (session_user_id (session s)) as [user_id|] eqn:E.
    - destruct Hlive as [u Hu].
      rewrite (admin_only_user function args s user_id u E Hu).
      apply get_User_In in Hu. destruct Hu as [_ Hid].
      destruct (User.id u =? 1) eqn:E1; [|reflexivity].
      apply Z.eqb_eq in E1. exfalso. apply Hcaller. congruence.
    - apply admin_only_anonymous. exact E. }
  split; [exact Hguard|].
  unfold handle, respond, view, add_new_post, edit_post, delete_post.
  repeat split; intros; rewrite Hguard; reflexivity.
Qed.

End Guard.

Lemma admin_only_forbidden_witness :
  reachable (lib := sample_lib) sample_state_reader
  /\ session_user_id (session sample_state_reader) <> Some 1
  /\ handle (lib := sample_lib) (call_delete_post 1) sample_state_reader
     = (HTTPError 403, sample_state_reader).
Proof.
  assert (Hs : reachable (lib := sample_lib) sample_state_reader).
  { apply reachable_serve, reachable_serve, reachable_initial. }
  assert (Hc : session_user_id (session sample_state_reader) <> Some 1).
  { vm_compute. discriminate. }
  split; [exact Hs|]. split; [exact Hc|].
  apply (admin_only_forbidden (lib := sample_lib) sample_state_reader Hs Hc).
Defined.

(** ** Who is the admin (C10) *)

Lemma sequential_head (ids : list Z) (k : Z) :
  sequential (k :: ids) -> k = 1.
Proof. unfold sequential. simpl. intros H. inversion H. reflexivity. Qed.

Lemma sequential_later (l : list User.t) (u : User.t) :
  sequential (map User.id l) -> In u l -> hd_error l <> Some u -> User.id u <> 1.
Proof.
  intros Hseq Hin Hhd. apply In_nth_error in Hin. destruct Hin as [i Hi].
  destruct i as [|i].
  - destruct l; simpl in *; [discriminate | contradiction].
  - assert (Hk : nth_error (map User.id l) (S i) = Some (User.id u)).
    { rewrite nth_error_map, Hi. reflexivity. }
    rewrite Hseq in Hk. apply nth_error_sequential in Hk. lia.
Qed.

Section Admin.
Context {lib : Collaborators}.

(** C10.  The guard only looks at the id of the authenticated user.  The
    first registration on an empty [users] table, whatever name, email
    and password it carries, receives id 1, is logged in and passes the
    guard.  In a state whose user ids are sequential, a caller logged in
    as the first stored user passes the guard around any function, and a
    caller logged in as any other stored user gets 403. *)
Theorem first_user_is_admin :
  (forall (s : State) (salt : string) (form : RegisterForm),
      users (db s) = [] ->
      RegisterForm_validate form = true ->
      exists new_user s',
        handle (call_register salt (POST form)) s = (redirect url_get_all_posts, s')
        /\ users (db s') = [new_user]
        /\ User.id new_user = 1
        /\ User.name new_user = reg_name form
        /\ User.email new_user = reg_email form
        /\ session_user_id (session s') = Some 1
        /\ forall (Args : Type) (function : Args -> M Response) (args : Args),
             admin_only function args s' = function args s')
  /\ (forall (s : State) (u : User.t),
        sequential (user_ids (db s)) ->
        In u (users (db s)) ->
        session_user_id (session s) = Some (User.id u) ->
        (hd_error (users (db s)) = Some u ->
           User.id u = 1
           /\ forall (Args : Type) (function : Args -> M Response) (args : Args),
                admin_only function args s = function args s)
        /\ (hd_error (users (db s)) <> Some u ->
              User.id u <> 1
              /\ forall (Args : Type) (function : Args -> M Response) (args : Args),
                   admin_only function args s = (inr (HTTPError 403), s))).
Proof.
  split.
  - intros [[us ps cs] [uid fl]] salt form Hempty Hvalid. simpl in Hempty. subst us.
    eexists. eexists. unfold_views. simpl. rewrite Hvalid. simpl.
    split; [reflexivity|]. simpl. repeat (split; [reflexivity|]).
    intros Args function args. reflexivity.
  - intros s u Hseq Hin Hcaller. split.
    + intros Hhd. destruct (users (db s)) as [|u0 l] eqn:E; [discriminate|].
      simpl in Hhd. inversion Hhd; subst u0.
      unfold user_ids in Hseq. rewrite E in Hseq. simpl in Hseq.
      apply sequential_head in Hseq. split; [exact Hseq|].
      intros Args function args.
      rewrite (admin_only_user function args s (User.id u) u Hcaller).
      * rewrite Hseq. reflexivity.
      * unfold get_User. rewrite E. simpl. rewrite Z.eqb_refl. reflexivity.
    + intros Hhd.
      pose proof (sequential_later (users (db s)) u Hseq Hin Hhd) as Hne.
      split; [exact Hne|]. intros Args function args.
      destruct (In_get_User (db s) u Hin) as [u' Hu'].
      rewrite (admin_only_user function args s (User.id u) u' Hcaller Hu').
      apply get_User_In in Hu'. destruct Hu' as [_ Hid].
      destruct (User.id u' =? 1) eqn:E1; [|reflexivity].
      apply Z.eqb_eq in E1. congruence.
Qed.

End Admin.

Lemma first_user_is_admin_witness :
  (exists new_user s',
      handle (lib := sample_lib) (call_register "c2FsdA" (POST sample_admin)) initial_state
      = (redirect url_get_all_posts, s')
      /\ users (db s') = [new_user]
      /\ User.id new_user = 1
      /\ session_user_id (session s') = Some 1)
  /\ (forall (Args : Type) (function : Args -> M Response) (args : Args),
        admin_only function args sample_state_reader
        = (inr (HTTPError 403), sample_state_reader)).
Proof.
  destruct (first_user_is_admin (lib := sample_lib)) as [Hfirst Hothers]. split.
  - destruct (Hfirst initial_state "c2FsdA" sample_admin eq_refl eq_refl)
      as [new_user [s' [H1 [H2 [H3 [_ [_ [H4 _]]]]]]]].
    exists new_user, s'. auto.
  - assert (Hseq : sequential (user_ids (db sample_state_reader))) by reflexivity.
    assert (Hin : In (User.mk 2 "Reader" "reader@gmail.com" "pbkdf2$cmVhZA$abc")
                     (users (db sample_state_reader))).
    { vm_compute. right. left. reflexivity. }
    destruct (Hothers sample_state_reader _ Hseq Hin eq_refl) as [_ Hforbidden].
    apply Hforbidden. vm_compute. discriminate.
Defined.

(** ** Registration and login (C5, C6, C7) *)

Lemma email_fresh (e : string) (us : list User.t) :
  (forall u, In u us -> User.email u <> e) ->
  find (fun u => String.eqb (User.email u) e) us = None
  /\ existsb (fun u => String.eqb (User.email u) e) us = false.
Proof.
  induction us as [|a us IH]; simpl; intros H; [auto|].
  destruct (String.eqb_spec (User.email a) e) as [Heq|Hne].
  - exfalso. apply (H a); auto.
  - apply IH. intros u Hu. apply H. auto.
Qed.

Lemma email_taken (e : string) (us : list User.t) (u : User.t) :
  In u us -> User.email u = e ->
  exists u', find (fun u => String.eqb (User.email u) e) us = Some u'.
Proof.
  intros Hin He.
  destruct (find (fun u0 => String.eqb (User.email u0) e) us) as [u'|] eqn:E.
  - exists u'. reflexivity.
  - apply (find_none _ _ E) in Hin. rewrite He, String.eqb_refl in Hin. discriminate.
Qed.

Lemma email_unique (us : list User.t) (u : User.t) :
  NoDup (map User.email us) -> In u us ->
  find (fun u0 => String.eqb (User.email u0) (User.email u)) us = Some u.
Proof.
  induction us as [|a us IH]; simpl; intros Hnd Hin; [contradiction|].
  inversion Hnd as [|e es Hnotin Hnd']; subst.
  destruct (String.eqb_spec (User.email a) (User.email u)) as [Heq|Hne].
  - destruct Hin as [->|Hin]; [reflexivity|].
    exfalso. apply Hnotin. rewrite Heq. apply in_map. exact Hin.
  - destruct Hin as [->|Hin]; [congruence|]. apply IH; assumption.
Qed.

Section Accounts.
Context {lib : Collaborators}.

(** C5.  A valid registration whose email no stored user has adds
    exactly one row to [users], carrying the submitted name and email and
    the output of [generate_password_hash] on the submitted password,
    which is not the password itself as long as the hash function does
    not return its input; the new user is logged in and the response
    redirects to the listing.  Posts and comments are untouched. *)
Theorem register_fresh_email (s : State) (salt : string) (form : RegisterForm)
    (Hvalid : RegisterForm_validate form = true)
    (Hfresh : forall u, In u (users (db s)) -> User.email u <> reg_email form)
    (Hhash : generate_password_hash (reg_password form) "pbkdf2" 8 salt
             <> reg_password form) :
  let new_user :=
    User.mk (next_id (user_ids (db s))) (reg_name form) (reg_email form)
            (generate_password_hash (reg_password form) "pbkdf2" 8 salt) in
  handle (call_register salt (POST form)) s
  = (redirect url_get_all_posts,
     mkState (mkDatabase (users (db s) ++ [new_user]) (blog_posts (db s)) (comments (db s)))
             (mkSession (Some (User.id new_user)) (session_flashes (session s))))
  /\ User.password new_user <> reg_password form
  /\ ~ In (User.id new_user) (user_ids (db s)).
Proof.
  intros new_user. destruct (email_fresh _ _ Hfresh) as [Hfind Hexists].
  split; [|split].
  - unfold_views. simpl. rewrite Hvalid, Hfind. simpl. rewrite Hexists. reflexivity.
  - exact Hhash.
  - apply next_id_fresh.
Qed.

(** C6.  A valid registration whose email a stored user already has
    stores nothing: the tables and the logged-in user are as before, one
    message is flashed and the response redirects to the login page. *)
Theorem register_existing_email (s : State) (salt : string) (form : RegisterForm)
    (u : User.t)
    (Hvalid : RegisterForm_validate form = true)
    (Hin : In u (users (db s)))
    (Hemail : User.email u = reg_email form) :
  handle (call_register salt (POST form)) s
  = (redirect url_login,
     mkState (db s)
             (mkSession (session_user_id (session s))
                        (session_flashes (session s)
                         ++ ["You've signed up with this email, log in instead!"]))).
Proof.
  destruct (email_taken _ _ _ Hin Hemail) as [u' Hfind].
  unfold_views. simpl. rewrite Hvalid, Hfind. reflexivity.
Qed.

(** C7.  A valid login whose email is that of a stored user [u] (emails
    being unique, as the column declares): when the password verifies
    against the stored hash, [u] becomes the logged-in user and the
    response redirects to the listing; when it does not, the tables and
    the logged-in user stay as they were, "Incorrect password, please try
    again." is flashed and the response redirects to the login page. *)
Theorem login_existing_email (s : State) (form : LoginForm) (u : User.t)
    (Hvalid : LoginForm_validate form = true)
    (Hunique : NoDup (map User.email (users (db s))))
    (Hin : In u (users (db s)))
    (Hemail : User.email u = login_email form) :
  (check_password_hash (User.password u) (login_password form) = true ->
     handle (call_login (POST form)) s
     = (redirect url_get_all_posts,
        mkState (db s) (mkSession (Some (User.id u)) (session_flashes (session s)))))
  /\ (check_password_hash (User.password u) (login_password form) = false ->
        handle (call_login (POST form)) s
        = (redirect url_login,
           mkState (db s)
                   (mkSession (session_user_id (session s))
                              (session_flashes (session s)
                               ++ ["Incorrect password, please try again."])))).
Proof.
  pose proof (email_unique _ _ Hunique Hin) as Hfind. rewrite Hemail in Hfind.
  split; intros Hcheck; unfold_views; simpl; rewrite Hvalid, Hfind; simpl;
    rewrite Hcheck; reflexivity.
Qed.

Lemma handle_emails_unique (c : Call) (s : State) :
  NoDup (map User.email (users (db s))) ->
  NoDup (map User.email (users (db (snd (handle c s))))).
Proof.
  destruct s as [d [uid fl]].
  destruct c; unfold_views; simpl; repeat break_match; simpl; try tauto.
  intros Hnd. rewrite map_app. simpl. apply NoDup_app; [exact Hnd | | ].
  - constructor; [intros [] | constructor].
  - intros e He [<-|[]]. apply in_map_iff in He. destruct He as [u [Hu Hin]].
    match goal with
    | H : existsb _ _ = false |- _ =>
        apply Bool.not_true_iff_false in H; apply H; apply existsb_exists
    end.
    exists u. split; [exact Hin|]. rewrite Hu. apply String.eqb_refl.
Qed.

Lemma reachable_emails_unique (s : State) :
  reachable s -> NoDup (map User.email (users (db s))).
Proof.
  induction 1 as [|c s Hs IH]; [constructor | apply handle_emails_unique; exact IH].
Qed.

End Accounts.

Lemma register_fresh_email_witness :
  handle (lib := sample_lib) (call_register "c2FsdA" (POST sample_admin)) initial_state
  = (redirect url_get_all_posts,
     mkState (mkDatabase [User.mk 1 "Kyrylo Yefremov" "admin@gmail.com" "pbkdf2$c2FsdA$123"]
                         [] [])
             (mkSession (Some 1) []))
  /\ "pbkdf2$c2FsdA$123" <> "123".
Proof.
  assert (Hfresh : forall u, In u (users (db initial_state)) ->
                             User.email u <> reg_email sample_admin).
  { intros u []. }
  assert (Hhash : generate_password_hash (Collaborators := sample_lib)
                    (reg_password sample_admin) "pbkdf2" 8 "c2FsdA"
                  <> reg_password sample_admin).
  { vm_compute. discriminate. }
  destruct (register_fresh_email (lib := sample_lib) initial_state "c2FsdA"
              sample_admin eq_refl Hfresh Hhash) as [H1 [H2 _]].
  split; [exact H1 | exact H2].
Defined.

Lemma register_existing_email_witness :
  handle (lib := sample_lib) (call_register "b3RoZXI" (POST sample_admin)) sample_state
  = (redirect url_login,
     mkState (db sample_state)
             (mkSession (Some 1) ["You've signed up with this email, log in instead!"])).
Proof.
  apply (register_existing_email (lib := sample_lib) sample_state "b3RoZXI" sample_admin
           (User.mk 1 "Kyrylo Yefremov" "admin@gmail.com" "pbkdf2$c2FsdA$123")).
  - reflexivity.
  - vm_compute. left. reflexivity.
  - reflexivity.
Defined.

Lemma login_existing_email_witness :
  handle (lib := sample_lib) (call_login (POST (mkLoginForm "admin@gmail.com" "123")))
         sample_state_reader
  = (redirect url_get_all_posts, mkState (db sample_state_reader) (mkSession (Some 1) []))
  /\ handle (lib := sample_lib) (call_login (POST (mkLoginForm "admin@gmail.com" "1234")))
            sample_state_reader
     = (redirect url_login,
        mkState (db sample_state_reader)
                (mkSession (Some 2) ["Incorrect password, please try again."])).
Proof.
  assert (Hunique : NoDup (map User.email (users (db sample_state_reader)))).
  { vm_compute. repeat constructor; simpl; intuition discriminate. }
  assert (Hin : In (User.mk 1 "Kyrylo Yefremov" "admin@gmail.com" "pbkdf2$c2FsdA$123")
                   (users (db sample_state_reader))).
  { vm_compute. left. reflexivity. }
  split.
  - apply (login_existing_email (lib := sample_lib) sample_state_reader
             (mkLoginForm "admin@gmail.com" "123") _ eq_refl Hunique Hin eq_refl).
    reflexivity.
  - apply (login_existing_email (lib := sample_lib) sample_state_reader
             (mkLoginForm "admin@gmail.com" "1234") _ eq_refl Hunique Hin eq_refl).
    reflexivity.
Defined.

(** ** Dates *)

Lemma is_digit_digit (n : Z) : is_digit (digit n) = true.
Proof.
  unfold is_digit, digit.
  assert (Hk : (Z.to_nat (n mod 10) < 10)%nat).
  { pose proof (Z.mod_pos_bound n 10 ltac:(lia)). lia. }
  rewrite nat_ascii_embedding by lia.
  apply andb_true_iff. split; apply Nat.leb_le; lia.
Qed.

Example strftime_April_05_2024 :
  strftime (date.mk 2024 4 5) "%B %d, %Y" = "April 05, 2024".
Proof. reflexivity. Qed.

Lemma strftime_B_d_Y (d : date.t) :
  strftime d "%B %d, %Y"
  = (month_name (date.month d) ++ " " ++ two_digits (date.day d) ++ ", "
     ++ four_digits (date.year d))%string.
Proof. reflexivity. Qed.

Lemma month_name_In (m : Z) : 1 <= m <= 12 -> In (month_name m) month_names.
Proof.
  intros H.
  assert (Hm : m = 1 \/ m = 2 \/ m = 3 \/ m = 4 \/ m = 5 \/ m = 6 \/ m = 7
               \/ m = 8 \/ m = 9 \/ m = 10 \/ m = 11 \/ m = 12) by lia.
  repeat (destruct Hm as [->|Hm]; [simpl; tauto|]). subst. simpl. tauto.
Qed.

Lemma Month_DD_YYYY_intro (name : string) (d1 d2 y1 y2 y3 y4 : ascii) :
  In name month_names ->
  is_digit d1 = true -> is_digit d2 = true ->
  is_digit y1 = true -> is_digit y2 = true -> is_digit y3 = true -> is_digit y4 = true ->
  Month_DD_YYYY
    (name ++ String " " (String d1 (String d2 (String "," (String " "
       (String y1 (String y2 (String y3 (String y4 EmptyString)))))))))%string = true.
Proof.
  intros Hin H1 H2 H3 H4 H5 H6. unfold Month_DD_YYYY, month_names in *.
  simpl in Hin.
  repeat (destruct Hin as [<-|Hin];
          [simpl; rewrite H1, H2, H3, H4, H5, H6; reflexivity|]).
  contradiction.
Qed.

Lemma strftime_Month_DD_YYYY (d : date.t) :
  valid_date d -> Month_DD_YYYY (strftime d "%B %d, %Y") = true.
Proof.
  intros [_ [Hm _]]. rewrite strftime_B_d_Y. unfold two_digits, four_digits. simpl.
  apply Month_DD_YYYY_intro; [apply month_name_In; exact Hm | ..];
    apply is_digit_digit.
Qed.

Lemma digit_value_digit (n : Z) : digit_value (digit n) = n mod 10.
Proof.
  unfold digit_value, digit.
  pose proof (Z.mod_pos_bound n 10 ltac:(lia)) as Hk.
  rewrite nat_ascii_embedding by lia. lia.
Qed.

Lemma month_name_calendar (m : Z) : 1 <= m <= 12 -> In (month_name m, m) calendar.
Proof.
  intros H.
  assert (Hm : m = 1 \/ m = 2 \/ m = 3 \/ m = 4 \/ m = 5 \/ m = 6 \/ m = 7
               \/ m = 8 \/ m = 9 \/ m = 10 \/ m = 11 \/ m = 12) by lia.
  repeat (destruct Hm as [->|Hm]; [simpl; tauto|]). subst. simpl. tauto.
Qed.

Lemma read_Month_DD_YYYY_intro (name : string) (m : Z) (d1 d2 y1 y2 y3 y4 : ascii) :
  In (name, m) calendar ->
  is_digit d1 = true -> is_digit d2 = true ->
  is_digit y1 = true -> is_digit y2 = true -> is_digit y3 = true -> is_digit y4 = true ->
  read_Month_DD_YYYY
    (name ++ String " " (String d1 (String d2 (String "," (String " "
       (String y1 (String y2 (String y3 (String y4 EmptyString)))))))))%string
  = Some (date.mk (1000 * digit_value y1 + 100 * digit_value y2
                   + 10 * digit_value y3 + digit_value y4)
                  m
                  (10 * digit_value d1 + digit_value d2)).
Proof.
  intros Hin H1 H2 H3 H4 H5 H6. unfold read_Month_DD_YYYY, calendar in *.
  simpl in Hin.
  repeat (destruct Hin as [Hin|Hin];
          [inversion Hin; subst; simpl; rewrite H1, H2, H3, H4, H5, H6; reflexivity|]).
  contradiction.
Qed.

(** The date that [strftime] writes with "%B %d, %Y" reads back, as
    "Month DD, YYYY", to the date it was given. *)
Lemma read_strftime (d : date.t) :
  valid_date d -> read_Month_DD_YYYY (strftime d "%B %d, %Y") = Some d.
Proof.
  destruct d as [y m dd]. unfold valid_date. cbn [date.year date.month date.day].
  intros [Hy [Hm Hd]]. rewrite strftime_B_d_Y.
  pose proof (read_Month_DD_YYYY_intro (month_name m) m
                (digit (dd / 10)) (digit dd)
                (digit (y / 1000)) (digit (y / 100)) (digit (y / 10)) (digit y)
                (month_name_calendar m Hm)
                (is_digit_digit _) (is_digit_digit _) (is_digit_digit _)
                (is_digit_digit _) (is_digit_digit _) (is_digit_digit _)) as Hread.
  rewrite !digit_value_digit in Hread.
  etransitivity; [exact Hread|]. f_equal. f_equal.
  - Z.div_mod_to_equations. lia.
  - Z.div_mod_to_equations. lia.
Qed.

(** ** Comments (C4) *)

Section Comments.
Context {lib : Collaborators}.

(** C4.  A valid comment submitted on the page of an existing post: an
    anonymous caller gets a flash and a redirect to the login page, and
    the tables are as before; a caller logged in as a stored user adds
    exactly one row to [comments], whose [post_id] is the requested post
    and whose [author_id] is the caller's id, and is redirected to the
    page of the same post. *)
Theorem show_post_comment (s : State) (post_id : Z) (form : CommentForm)
    (post : BlogPost.t)
    (Hvalid : CommentForm_validate form = true)
    (Hpost : get_BlogPost post_id (db s) = Some post) :
  (session_user_id (session s) = None ->
     handle (call_show_post post_id (POST form)) s
     = (redirect url_login,
        mkState (db s)
                (mkSession None
                   (session_flashes (session s)
                    ++ ["Please log in to live comments on blog posts!"]))))
  /\ (forall (user_id : Z) (u : User.t),
        session_user_id (session s) = Some user_id ->
        get_User user_id (db s) = Some u ->
        handle (call_show_post post_id (POST form)) s
        = (redirect (url_show_post post_id),
           mkState (mkDatabase (users (db s)) (blog_posts (db s))
                      (comments (db s)
                       ++ [Comment.mk (next_id (map Comment.id (comments (db s))))
                                      (Some user_id) (Some post_id) (comment form)]))
                   (session s))).
Proof.
  split.
  - intros Hanon. unfold_views. simpl. rewrite Hpost, Hvalid, Hanon. simpl.
    rewrite Hanon. reflexivity.
  - intros user_id u Hsession Huser. unfold_views. simpl.
    rewrite Hpost, Hvalid, Hsession, Huser. simpl.
    apply get_User_In in Huser. destruct Huser as [_ ->]. reflexivity.
Qed.

End Comments.

Lemma show_post_comment_witness :
  handle (lib := sample_lib) (call_show_post 1 (POST (mkCommentForm "Second!")))
         (mkState (db sample_state) anonymous_session)
  = (redirect url_login,
     mkState (db sample_state)
             (mkSession None ["Please log in to live comments on blog posts!"]))
  /\ handle (lib := sample_lib) (call_show_post 1 (POST (mkCommentForm "Second!")))
            sample_state_reader
     = (redirect (url_show_post 1),
        mkState (mkDatabase (users (db sample_state_reader))
                            (blog_posts (db sample_state_reader))
                            [Comment.mk 1 (Some 1) (Some 1) "First!";
                             Comment.mk 2 (Some 2) (Some 1) "Second!"])
                (session sample_state_reader)).
Proof.
  split.
  - apply (show_post_comment (lib := sample_lib)
             (mkState (db sample_state) anonymous_session) 1 (mkCommentForm "Second!")
             (BlogPost.mk 1 (Some 1) "Blog Post 1" "The subtitle" "April 05, 2024"
                          "bla bla bla...." "https:img_url.com")
             eq_refl eq_refl).
    reflexivity.
  - apply (show_post_comment (lib := sample_lib) sample_state_reader 1
             (mkCommentForm "Second!")
             (BlogPost.mk 1 (Some 1) "Blog Post 1" "The subtitle" "April 05, 2024"
                          "bla bla bla...." "https:img_url.com")
             eq_refl eq_refl) with
      (u := User.mk 2 "Reader" "reader@gmail.com" "pbkdf2$cmVhZA$abc");
      reflexivity.
Defined.

(** ** Posts (C8, C9) *)

Lemma title_free (t : string) (post_id : Z) (posts : list BlogPost.t) :
  (forall p, In p posts -> BlogPost.id p <> post_id -> BlogPost.title p <> t) ->
  existsb (fun p => negb (BlogPost.id p =? post_id) && String.eqb (BlogPost.title p) t)
          posts = false.
Proof.
  induction posts as [|a posts IH]; simpl; intros H; [reflexivity|].
  rewrite IH by (intros p Hp; apply H; auto). rewrite orb_false_r.
  destruct (Z.eqb_spec (BlogPost.id a) post_id) as [|Hne]; [reflexivity|]. simpl.
  apply String.eqb_neq. apply H; auto.
Qed.

Lemma title_fresh (t : string) (posts : list BlogPost.t) :
  (forall p, In p posts -> BlogPost.title p <> t) ->
  existsb (fun p => String.eqb (BlogPost.title p) t) posts = false.
Proof.
  induction posts as [|a posts IH]; simpl; intros H; [reflexivity|].
  rewrite IH by (intros p Hp; apply H; auto). rewrite orb_false_r.
  apply String.eqb_neq. apply H; auto.
Qed.

Lemma find_update (edited : BlogPost.t) (q : Z) (posts : list BlogPost.t) :
  find (fun p => BlogPost.id p =? q)
       (map (fun p => if BlogPost.id p =? BlogPost.id edited then edited else p) posts)
  = if q =? BlogPost.id edited
    then option_map (fun _ => edited)
                    (find (fun p => BlogPost.id p =? BlogPost.id edited) posts)
    else find (fun p => BlogPost.id p =? q) posts.
Proof.
  induction posts as [|a posts IH]; simpl.
  - destruct (q =? BlogPost.id edited); reflexivity.
  - destruct (Z.eqb_spec (BlogPost.id a) (BlogPost.id edited)) as [Ha|Ha].
    + rewrite (Z.eqb_sym (BlogPost.id edited) q).
      destruct (Z.eqb_spec q (BlogPost.id edited)) as [Hq|Hq]; [reflexivity|].
      rewrite IH. destruct (Z.eqb_spec (BlogPost.id a) q); [congruence|].
      destruct (Z.eqb_spec q (BlogPost.id edited)); [contradiction | reflexivity].
    + destruct (Z.eqb_spec (BlogPost.id a) q) as [Hq|Hq].
      * subst q. destruct (Z.eqb_spec (BlogPost.id a) (BlogPost.id edited));
          [contradiction | reflexivity].
      * exact IH.
Qed.

Lemma find_next_id (posts : list BlogPost.t) :
  find (fun p => BlogPost.id p =? next_id (map BlogPost.id posts)) posts = None.
Proof.
  destruct (find _ posts) as [p|] eqn:E; [|reflexivity].
  apply find_some in E. destruct E as [Hin Heq]. apply Z.eqb_eq in Heq.
  exfalso. apply (next_id_fresh (map BlogPost.id posts)).
  rewrite <- Heq. apply in_map. exact Hin.
Qed.

Section Posts.
Context {lib : Collaborators}.

(** C8, as amended.  A valid edit submitted by the admin on an existing
    post, with a title that no other post carries, overwrites the title,
    subtitle, image URL and body of that post with the submitted values
    and sets its author to the admin; the date of the post is kept, the
    response redirects to the page of the post, and every other post,
    the users, the comments and the session are as before. *)
Theorem edit_post_overwrites (s : State) (post_id : Z) (form : CreatePostForm)
    (post : BlogPost.t) (admin : User.t)
    (Hvalid : CreatePostForm_validate form = true)
    (Hsession : session_user_id (session s) = Some 1)
    (Hadmin : get_User 1 (db s) = Some admin)
    (Hpost : get_BlogPost post_id (db s) = Some post)
    (Htitle : forall p, In p (blog_posts (db s)) ->
                        BlogPost.id p <> post_id -> BlogPost.title p <> form_title form) :
  let edited :=
    BlogPost.mk post_id (Some 1) (form_title form) (form_subtitle form)
                (BlogPost.date post) (form_body form) (form_img_url form) in
  let s' :=
    mkState (mkDatabase (users (db s))
               (map (fun p => if BlogPost.id p =? post_id then edited else p)
                    (blog_posts (db s)))
               (comments (db s)))
            (session s) in
  handle (call_edit_post post_id (POST form)) s = (redirect (url_show_post post_id), s')
  /\ get_BlogPost post_id (db s') = Some edited
  /\ (forall q, q <> post_id -> get_BlogPost q (db s') = get_BlogPost q (db s)).
Proof.
  intros edited s'.
  pose proof (title_free _ _ _ Htitle) as Hfree.
  destruct (get_User_In _ _ _ Hadmin) as [_ Hadmin_id].
  destruct (get_BlogPost_In _ _ _ Hpost) as [_ Hpost_id].
  split; [|split].
  - unfold_views. unfold get_User, get_BlogPost in *.
    repeat first [ progress simpl | rewrite Hsession | rewrite Hadmin
                 | rewrite Hadmin_id | rewrite Hpost | rewrite Hvalid
                 | rewrite Hpost_id | rewrite Hfree ].
    reflexivity.
  - unfold get_BlogPost, s'. simpl.
    rewrite (find_update edited post_id). simpl. rewrite Z.eqb_refl.
    unfold get_BlogPost in Hpost. rewrite Hpost. reflexivity.
  - intros q Hq. unfold get_BlogPost, s'. simpl.
    rewrite (find_update edited q). simpl.
    destruct (Z.eqb_spec q post_id); [contradiction | reflexivity].
Qed.

(** C9.  A valid post submitted by the admin with a title that no stored
    post carries is stored as one new row; fetching the page of that post
    right after, as the admin or anonymously, renders the row with the
    submitted title, subtitle, body and image URL, and its date is the
    day of creation written "Month DD, YYYY": a month name, two digits
    and four digits which, read back, give the month, the day and the
    year of that day. *)
Theorem add_new_post_round_trip (s : State) (today : date.t) (form : CreatePostForm)
    (admin : User.t)
    (Hvalid : CreatePostForm_validate form = true)
    (Hsession : session_user_id (session s) = Some 1)
    (Hadmin : get_User 1 (db s) = Some admin)
    (Hfresh : forall p, In p (blog_posts (db s)) -> BlogPost.title p <> form_title form)
    (Hdate : valid_date today) :
  let new_post :=
    BlogPost.mk (next_id (post_ids (db s))) (Some 1) (form_title form)
                (form_subtitle form) (strftime today "%B %d, %Y") (form_body form)
                (form_img_url form) in
  let d' := mkDatabase (users (db s)) (blog_posts (db s) ++ [new_post]) (comments (db s)) in
  let shown :=
    filter (fun c => refers_to (Comment.post_id c) (BlogPost.id new_post))
           (comments (db s)) in
  handle (call_add_new_post today (POST form)) s
  = (redirect url_get_all_posts, mkState d' (session s))
  /\ handle (call_show_post (BlogPost.id new_post) GET) (mkState d' (session s))
     = (render_template (post_html new_post None (Some admin) shown),
        mkState d' (session s))
  /\ handle (call_show_post (BlogPost.id new_post) GET) (mkState d' anonymous_session)
     = (render_template (post_html new_post None None shown),
        mkState d' anonymous_session)
  /\ BlogPost.date new_post
     = (month_name (date.month today) ++ " " ++ two_digits (date.day today) ++ ", "
        ++ four_digits (date.year today))%string
  /\ Month_DD_YYYY (BlogPost.date new_post) = true
  /\ read_Month_DD_YYYY (BlogPost.date new_post) = Some today.
Proof.
  intros new_post d' shown.
  pose proof (title_fresh _ _ Hfresh) as Hfree.
  destruct (get_User_In _ _ _ Hadmin) as [_ Hadmin_id].
  assert (Hget : find (fun p => BlogPost.id p =? BlogPost.id new_post)
                      (blog_posts (db s) ++ [new_post]) = Some new_post).
  { rewrite find_snoc. unfold new_post at 1. simpl. unfold post_ids.
    rewrite find_next_id. rewrite Z.eqb_refl. reflexivity. }
  unfold get_User in Hadmin.
  split; [|split; [|split; [|split; [|split]]]].
  - unfold_views. unfold get_User, get_BlogPost in *.
    repeat first [ progress simpl | rewrite Hsession | rewrite Hadmin
                 | rewrite Hadmin_id | rewrite Hvalid | rewrite Hfree ].
    reflexivity.
  - unfold handle, respond, view, show_post, get_or_404, get_BlogPost, bind.
    unfold d' at 1. cbn [db blog_posts]. rewrite Hget.
    unfold validate_on_submit, select_Comment_by_post, current_user, load_user,
      get_or_404, get_User, bind, ret. cbn [db session users comments d'].
    rewrite Hsession, Hadmin. reflexivity.
  - unfold handle, respond, view, show_post, get_or_404, get_BlogPost, bind.
    unfold d' at 1. cbn [db blog_posts]. rewrite Hget. reflexivity.
  - apply strftime_B_d_Y.
  - apply strftime_Month_DD_YYYY. exact Hdate.
  - apply read_strftime. exact Hdate.
Qed.

End Posts.

Lemma edit_post_overwrites_witness :
  handle (lib := sample_lib)
         (call_edit_post 2 (POST (mkCreatePostForm "Blog Post 2, revised" "A subtitle"
                                                   "https:img_url.com/3" "new text")))
         sample_state_two_posts
  = (redirect (url_show_post 2),
     mkState (mkDatabase (users (db sample_state_two_posts))
                [BlogPost.mk 1 (Some 1) "Blog Post 1" "The subtitle" "April 05, 2024"
                             "bla bla bla...." "https:img_url.com";
                 BlogPost.mk 2 (Some 1) "Blog Post 2, revised" "A subtitle"
                             "April 05, 2024" "new text" "https:img_url.com/3"]
                (comments (db sample_state_two_posts)))
             (session sample_state_two_posts)).
Proof.
  assert (Htitle : forall p, In p (blog_posts (db sample_state_two_posts)) ->
                             BlogPost.id p <> 2 ->
                             BlogPost.title p <> "Blog Post 2, revised").
  { intros p Hin Hne. vm_compute in Hin. destruct Hin as [<-|[<-|[]]].
    - discriminate.
    - exfalso. apply Hne. reflexivity. }
  apply (edit_post_overwrites (lib := sample_lib) sample_state_two_posts 2
           (mkCreatePostForm "Blog Post 2, revised" "A subtitle"
                             "https:img_url.com/3" "new text")
           (BlogPost.mk 2 (Some 1) "Blog Post 2" "Another subtitle" "April 05, 2024"
                        "more text" "https:img_url.com/2")
           (User.mk 1 "Kyrylo Yefremov" "admin@gmail.com" "pbkdf2$c2FsdA$123")
           eq_refl eq_refl eq_refl eq_refl Htitle).
Defined.

(** C8, as stated, fails: the admin edits the second post and submits the
    title of the first one; the form is valid and the post exists, but
    the commit breaks the uniqueness of [title], the response is a 500
    and the post keeps its old fields. *)
Lemma edit_post_duplicate_title :
  reachable (lib := sample_lib) sample_state_two_posts
  /\ CreatePostForm_validate (Collaborators := sample_lib) sample_post = true
  /\ session_user_id (session sample_state_two_posts) = Some 1
  /\ get_BlogPost 2 (db sample_state_two_posts)
     = Some (BlogPost.mk 2 (Some 1) "Blog Post 2" "Another subtitle" "April 05, 2024"
                         "more text" "https:img_url.com/2")
  /\ handle (lib := sample_lib) (call_edit_post 2 (POST sample_post))
            sample_state_two_posts
     = (HTTPError 500, sample_state_two_posts).
Proof.
  split; [apply reachable_serve, reachable_serve, reachable_initial|].
  repeat split; reflexivity.
Qed.

Lemma add_new_post_round_trip_witness :
  handle (lib := sample_lib) (call_add_new_post sample_today (POST sample_post_2))
         sample_state
  = (redirect url_get_all_posts, sample_state_two_posts)
  /\ handle (lib := sample_lib) (call_show_post 2 GET) sample_state_two_posts
     = (render_template
          (post_html (BlogPost.mk 2 (Some 1) "Blog Post 2" "Another subtitle"
                                  "April 05, 2024" "more text" "https:img_url.com/2")
                     None
                     (Some (User.mk 1 "Kyrylo Yefremov" "admin@gmail.com"
                                    "pbkdf2$c2FsdA$123"))
                     []),
        sample_state_two_posts)
  /\ Month_DD_YYYY "April 05, 2024" = true
  /\ read_Month_DD_YYYY "April 05, 2024" = Some (date.mk 2024 4 5).
Proof.
  assert (Hfresh : forall p, In p (blog_posts (db sample_state)) ->
                             BlogPost.title p <> form_title sample_post_2).
  { intros p Hin. vm_compute in Hin. destruct Hin as [<-|[]]. discriminate. }
  assert (Hdate : valid_date sample_today).
  { unfold valid_date. simpl. lia. }
  destruct (add_new_post_round_trip (lib := sample_lib) sample_state sample_today
              sample_post_2
              (User.mk 1 "Kyrylo Yefremov" "admin@gmail.com" "pbkdf2$c2FsdA$123")
              eq_refl eq_refl eq_refl Hfresh Hdate) as [H1 [H2 [_ [_ [H3 H4]]]]].
  split; [exact H1|]. split; [exact H2|]. split; [exact H3 | exact H4].
Defined.

(** * Further properties of the view functions *)

(** ** Posts that do not exist *)

Lemma find_filtered_out (post_id : Z) (posts : list BlogPost.t) :
  find (fun p => BlogPost.id p =? post_id)
       (filter (fun p => negb (BlogPost.id p =? post_id)) posts) = None.
Proof.
  induction posts as [|a posts IH]; simpl; [reflexivity|].
  destruct (BlogPost.id a =? post_id) eqn:E; simpl; [exact IH|].
  rewrite E. exact IH.
Qed.

Lemma find_filter_other (post_id q : Z) (posts : list BlogPost.t) :
  q <> post_id ->
  find (fun p => BlogPost.id p =? q)
       (filter (fun p => negb (BlogPost.id p =? post_id)) posts)
  = find (fun p => BlogPost.id p =? q) posts.
Proof.
  intros Hq. induction posts as [|a posts IH]; simpl; [reflexivity|].
  destruct (Z.eqb_spec (BlogPost.id a) post_id) as [Ha|Ha]; simpl.
  - destruct (Z.eqb_spec (BlogPost.id a) q); [congruence | exact IH].
  - destruct (BlogPost.id a =? q); [reflexivity | exact IH].
Qed.

Section NotFound.
Context {lib : Collaborators}.

(** X1.  When no post carries the requested id, an id that SQLite can
    hold (below 2^63), the detail page answers 404 to any caller and any
    request, a submitted comment included, and the admin gets 404 from
    the edit and delete routes; nothing is stored or flashed. *)
Theorem missing_post_not_found (s : State) (post_id : Z)
    (Hrange : post_id < 2 ^ 63)
    (Hmissing : get_BlogPost post_id (db s) = None) :
  (forall req, handle (call_show_post post_id req) s = (HTTPError 404, s))
  /\ (forall admin, session_user_id (session s) = Some 1 ->
        get_User 1 (db s) = Some admin ->
        (forall req, handle (call_edit_post post_id req) s = (HTTPError 404, s))
        /\ handle (call_delete_post post_id) s = (HTTPError 404, s)).
Proof.
  split.
  - intros req. unfold handle, respond, view, show_post, get_or_404, bind.
    rewrite Hmissing. reflexivity.
  - intros admin Hsession Hadmin.
    destruct (get_User_In _ _ _ Hadmin) as [_ Hid].
    unfold handle, respond, view, edit_post, delete_post.
    split; [intros req|];
      rewrite (admin_only_user _ _ s 1 admin Hsession Hadmin), Hid; simpl;
      unfold edit_post_wrapped, delete_post_wrapped, get_or_404, bind;
      rewrite Hmissing; reflexivity.
Qed.

(** X2.  Once the admin has deleted an existing post, no post carries its
    id any more: the detail page of that id answers 404 to every request,
    and so does the edit route. *)
Theorem delete_post_then_not_found (s : State) (post_id : Z) (post : BlogPost.t)
    (admin : User.t)
    (Hsession : session_user_id (session s) = Some 1)
    (Hadmin : get_User 1 (db s) = Some admin)
    (Hpost : get_BlogPost post_id (db s) = Some post) :
  let s' := snd (handle (call_delete_post post_id) s) in
  fst (handle (call_delete_post post_id) s) = redirect url_get_all_posts
  /\ get_BlogPost post_id (db s') = None
  /\ (forall req, handle (call_show_post post_id req) s' = (HTTPError 404, s'))
  /\ (forall req, handle (call_edit_post post_id req) s' = (HTTPError 404, s')).
Proof.
  intros s'.
  destruct (get_User_In _ _ _ Hadmin) as [_ Hid].
  destruct (get_BlogPost_In _ _ _ Hpost) as [_ Hpid].
  assert (Hrun : handle (call_delete_post post_id) s
                 = (redirect url_get_all_posts,
                    mkState (mkDatabase (users (db s))
                               (filter (fun p => negb (BlogPost.id p =? post_id))
                                       (blog_posts (db s)))
                               (map (orphan post_id) (comments (db s))))
                            (session s))).
  { unfold handle, respond, view, delete_post.
    rewrite (admin_only_user _ _ s 1 admin Hsession Hadmin), Hid. simpl.
    unfold delete_post_wrapped, get_or_404, delete_BlogPost, bind, ret.
    rewrite Hpost, Hpid. reflexivity. }
  assert (Hgone : get_BlogPost post_id (db s') = None).
  { unfold s'. rewrite Hrun. apply find_filtered_out. }
  split; [rewrite Hrun; reflexivity|]. split; [exact Hgone|].
  assert (Hsession' : session_user_id (session s') = Some 1).
  { unfold s'. rewrite Hrun. exact Hsession. }
  assert (Hadmin' : get_User 1 (db s') = Some admin).
  { unfold s'. rewrite Hrun. exact Hadmin. }
  clearbody s'. split; intros req.
  - unfold handle, respond, view, show_post, get_or_404, bind.
    rewrite Hgone. reflexivity.
  - unfold handle, respond, view, edit_post.
    rewrite (admin_only_user _ _ s' 1 admin Hsession' Hadmin'), Hid. simpl.
    unfold edit_post_wrapped, get_or_404, bind. rewrite Hgone. reflexivity.
Qed.

End NotFound.

Lemma missing_post_not_found_witness :
  handle (lib := sample_lib) (call_show_post 7 (POST (mkCommentForm "Hello"))) sample_state
  = (HTTPError 404, sample_state)
  /\ handle (lib := sample_lib) (call_delete_post 7) sample_state
     = (HTTPError 404, sample_state).
Proof.
  destruct (missing_post_not_found (lib := sample_lib) sample_state 7
              ltac:(lia) eq_refl) as [Hshow Hadmin].
  split; [apply Hshow|].
  apply (Hadmin (User.mk 1 "Kyrylo Yefremov" "admin@gmail.com" "pbkdf2$c2FsdA$123")
                eq_refl eq_refl).
Defined.

Lemma delete_post_then_not_found_witness :
  get_BlogPost 1 (db (snd (handle (lib := sample_lib) (call_delete_post 1) sample_state)))
  = None
  /\ handle (lib := sample_lib) (call_show_post 1 GET)
            (snd (handle (lib := sample_lib) (call_delete_post 1) sample_state))
     = (HTTPError 404,
        snd (handle (lib := sample_lib) (call_delete_post 1) sample_state)).
Proof.
  destruct (delete_post_then_not_found (lib := sample_lib) sample_state 1
              (BlogPost.mk 1 (Some 1) "Blog Post 1" "The subtitle" "April 05, 2024"
                           "bla bla bla...." "https:img_url.com")
              (User.mk 1 "Kyrylo Yefremov" "admin@gmail.com" "pbkdf2$c2FsdA$123")
              eq_refl eq_refl eq_refl) as [_ [Hgone [Hshow _]]].
  split; [exact Hgone | apply Hshow].
Defined.

(** ** Login, logout and rejected forms *)

Section Sessions.
Context {lib : Collaborators}.

(** X3.  A valid login whose email no stored user has changes neither
    the tables nor the logged-in user: "That email does not exist, please
    try again." is flashed and the response redirects to the login page,
    whatever the password. *)
Theorem login_unknown_email (s : State) (form : LoginForm)
    (Hvalid : LoginForm_validate form = true)
    (Hunknown : forall u, In u (users (db s)) -> User.email u <> login_email form) :
  handle (call_login (POST form)) s
  = (redirect url_login,
     mkState (db s)
             (mkSession (session_user_id (session s))
                        (session_flashes (session s)
                         ++ ["That email does not exist, please try again."]))).
Proof.
  destruct (email_fresh _ _ Hunknown) as [Hfind _].
  unfold_views. simpl. rewrite Hvalid, Hfind. reflexivity.
Qed.

(** X4.  Logging out, from a state whose session is anonymous or names
    a stored user, keeps the tables and the flashed messages, forgets the
    logged-in user and redirects to the listing; right after, the three
    admin routes answer 403 and change nothing.  From a session whose id
    names no user, logging out answers 404 and the session keeps the
    id. *)
Theorem logout_then_forbidden (s : State) :
  let s' := mkState (db s) (mkSession None (session_flashes (session s))) in
  (session_live s ->
     handle call_logout s = (redirect url_get_all_posts, s')
     /\ (forall today req, handle (call_add_new_post today req) s' = (HTTPError 403, s'))
     /\ (forall post_id req, handle (call_edit_post post_id req) s' = (HTTPError 403, s'))
     /\ (forall post_id, handle (call_delete_post post_id) s' = (HTTPError 403, s')))
  /\ (forall user_id,
        session_user_id (session s) = Some user_id ->
        get_User user_id (db s) = None ->
        handle call_logout s = (HTTPError 404, s)).
Proof.
  intros s'. split.
  - intros Hlive. split.
    + unfold session_live in Hlive. unfold_views.
      destruct (session_user_id (session s)) as [user_id|]; simpl; [|reflexivity].
      destruct Hlive as [u Hu]. rewrite Hu. reflexivity.
    + unfold handle, respond, view, add_new_post, edit_post, delete_post.
      repeat split; intros; rewrite admin_only_anonymous; reflexivity.
  - intros user_id Hsession Hgone. unfold_views. rewrite Hsession. simpl.
    rewrite Hgone. reflexivity.
Qed.

(** X5.  A request that is not a POST, or whose form does not validate,
    stores nothing and flashes nothing, whoever calls: the registration,
    login, comment, new-post and edit-post routes leave the state as it
    was.  When the session is anonymous or names a stored user,
    registration and login answer with their form rendered again. *)
Theorem rejected_form_no_change (s : State) :
  (forall salt req,
      validate_on_submit RegisterForm_validate req = None ->
      snd (handle (call_register salt req) s) = s
      /\ (session_live s ->
          fst (handle (call_register salt req) s)
          = render_template (register_html (submitted req))))
  /\ (forall req,
        validate_on_submit LoginForm_validate req = None ->
        snd (handle (call_login req) s) = s
        /\ (session_live s ->
            fst (handle (call_login req) s)
            = render_template (login_html (submitted req))))
  /\ (forall post_id req,
        validate_on_submit CommentForm_validate req = None ->
        snd (handle (call_show_post post_id req) s) = s)
  /\ (forall today req,
        validate_on_submit CreatePostForm_validate req = None ->
        snd (handle (call_add_new_post today req) s) = s)
  /\ (forall post_id req,
        validate_on_submit CreatePostForm_validate req = None ->
        snd (handle (call_edit_post post_id req) s) = s).
Proof.
  destruct s as [d [uid fl]]. unfold session_live.
  repeat split; intros;
    match goal with
    | H : validate_on_submit _ ?req = None |- _ =>
        unfold handle, respond, view, register, login, show_post, add_new_post,
          edit_post, admin_only, add_new_post_wrapped, edit_post_wrapped, render,
          current_user, load_user, get_or_404, select_Comment_by_post, abort,
          bind, ret in *; simpl in *; try rewrite H; simpl
    end;
    repeat break_match; try reflexivity; try (rewrite H; reflexivity);
    match goal with
    | Hlive : exists u, _ = Some u |- _ => destruct Hlive as [u Hu]; congruence
    end.
Qed.

End Sessions.

Lemma login_unknown_email_witness :
  handle (lib := sample_lib) (call_login (POST (mkLoginForm "nobody@gmail.com" "123")))
         sample_state
  = (redirect url_login,
     mkState (db sample_state)
             (mkSession (Some 1) ["That email does not exist, please try again."])).
Proof.
  apply (login_unknown_email (lib := sample_lib) sample_state
           (mkLoginForm "nobody@gmail.com" "123") eq_refl).
  intros u Hin. vm_compute in Hin. destruct Hin as [<-|[]]. discriminate.
Defined.

Lemma rejected_form_no_change_witness :
  handle (lib := sample_lib)
         (call_register "c2FsdA" (POST (mkRegisterForm "No Email" EmptyString "123")))
         sample_state
  = (render_template (register_html (Some (mkRegisterForm "No Email" EmptyString "123"))),
     sample_state)
  /\ snd (handle (lib := sample_lib) (call_show_post 1 (POST (mkCommentForm EmptyString)))
                 sample_state) = sample_state
  /\ snd (handle (lib := sample_lib) (call_edit_post 1 GET) sample_state) = sample_state.
Proof.
  destruct (rejected_form_no_change (lib := sample_lib) sample_state)
    as [Hregister [_ [Hshow [_ Hedit]]]].
  assert (Hlive : session_live sample_state).
  { simpl. eexists. reflexivity. }
  destruct (Hregister "c2FsdA" (POST (mkRegisterForm "No Email" EmptyString "123"))
                      eq_refl) as [Hstate Hpage].
  split; [apply injective_projections; [apply Hpage; exact Hlive | exact Hstate]|].
  split; [apply Hshow; reflexivity | apply Hedit; reflexivity].
Defined.

Lemma logout_then_forbidden_witness :
  handle (lib := sample_lib) call_logout sample_state
  = (redirect url_get_all_posts, mkState (db sample_state) (mkSession None []))
  /\ handle (lib := sample_lib) call_logout
            (mkState (db sample_state) (mkSession (Some 9) []))
     = (HTTPError 404, mkState (db sample_state) (mkSession (Some 9) [])).
Proof.
  destruct (logout_then_forbidden (lib := sample_lib) sample_state) as [Hlive _].
  destruct (logout_then_forbidden (lib := sample_lib)
              (mkState (db sample_state) (mkSession (Some 9) []))) as [_ Hstale].
  split.
  - apply Hlive. simpl. eexists. reflexivity.
  - apply (Hstale 9); reflexivity.
Defined.

(** ** Who can change which table *)

Lemma orphan_keeps (post_id : Z) (c : Comment.t) :
  Comment.id (orphan post_id c) = Comment.id c
  /\ Comment.author_id (orphan post_id c) = Comment.author_id c
  /\ Comment.text (orphan post_id c) = Comment.text c.
Proof.
  unfold orphan. destruct (refers_to (Comment.post_id c) post_id); simpl; auto.
Qed.

Ltac not_the_admin :=
  exfalso; unfold get_User in *;
  repeat match goal with
         | H : Some _ = Some _ |- _ => inversion H; subst; clear H
         end;
  match goal with
  | Hcaller : Some ?z <> Some 1,
    Hfind : find _ _ = Some ?u,
    Hid : negb (User.id ?u =? 1) = false |- _ =>
      apply Hcaller; apply find_some in Hfind;
      destruct Hfind as [_ Hfind]; apply Z.eqb_eq in Hfind;
      apply negb_false_iff, Z.eqb_eq in Hid; congruence
  end.

Section Writers.
Context {lib : Collaborators}.

(** X6.  No route removes or rewrites a user: after any call the [users]
    table is the old one followed by at most one new row, and a new row
    only comes from a submitted registration. *)
Theorem users_append_only (c : Call) (s : State) :
  exists more,
    users (db (snd (handle c s))) = users (db s) ++ more
    /\ (List.length more <= 1)%nat
    /\ (more <> [] -> exists salt form, c = call_register salt (POST form)).
Proof.
  destruct s as [d [uid fl]].
  destruct c; unfold_views; simpl; repeat break_match; simpl;
    try (exists []; rewrite app_nil_r; split; [reflexivity|];
         split; [simpl; lia | intros H; contradiction H; reflexivity]).
  eexists. split; [reflexivity|]. split; [simpl; lia|]. intros _. eauto.
Qed.

(** X7.  A caller who is not logged in under id 1 cannot change the
    [blog_posts] table, whatever route is called and whatever is
    submitted. *)
Theorem posts_written_by_admin_only (c : Call) (s : State)
    (Hcaller : session_user_id (session s) <> Some 1) :
  blog_posts (db (snd (handle c s))) = blog_posts (db s).
Proof.
  destruct s as [d [uid fl]]. simpl in Hcaller.
  destruct c; unfold_views; simpl; repeat break_match; simpl;
    try reflexivity; not_the_admin.
Qed.

(** X8.  A call made without a logged-in user changes neither the posts
    nor the comments. *)
Theorem anonymous_writes_nothing (c : Call) (s : State)
    (Hanon : session_user_id (session s) = None) :
  blog_posts (db (snd (handle c s))) = blog_posts (db s)
  /\ comments (db (snd (handle c s))) = comments (db s).
Proof.
  destruct s as [d [uid fl]]. simpl in Hanon. subst uid.
  destruct c; unfold_views; simpl; repeat break_match; simpl;
    split; reflexivity.
Qed.

(** X9.  No route removes a comment or rewrites its id, author or text:
    after any call every comment that was stored is still stored with
    these three fields, and the table has not shrunk. *)
Theorem comments_kept (c : Call) (s : State) :
  (List.length (comments (db s)) <= List.length (comments (db (snd (handle c s)))))%nat
  /\ forall old, In old (comments (db s)) ->
       exists new, In new (comments (db (snd (handle c s))))
                   /\ Comment.id new = Comment.id old
                   /\ Comment.author_id new = Comment.author_id old
                   /\ Comment.text new = Comment.text old.
Proof.
  destruct s as [d [uid fl]].
  destruct c; unfold_views; simpl; repeat break_match; simpl;
    try (split; [lia | intros old Hold; exists old; auto]).
  - split; [rewrite length_app; simpl; lia|].
    intros old Hold. exists old. split; [apply in_or_app; auto | auto].
  - split; [rewrite length_map; lia|].
    intros old Hold. eexists. split; [apply in_map; exact Hold | apply orphan_keeps].
Qed.

End Writers.

Lemma posts_written_by_admin_only_witness :
  blog_posts (db (snd (handle (lib := sample_lib)
                              (call_add_new_post sample_today (POST sample_post_2))
                              sample_state_reader)))
  = blog_posts (db sample_state_reader).
Proof.
  apply (posts_written_by_admin_only (lib := sample_lib)).
  vm_compute. discriminate.
Defined.

Lemma anonymous_writes_nothing_witness :
  comments (db (snd (handle (lib := sample_lib)
                            (call_show_post 1 (POST (mkCommentForm "Hello")))
                            (mkState (db sample_state) anonymous_session))))
  = comments (db sample_state).
Proof.
  apply (anonymous_writes_nothing (lib := sample_lib)
           (call_show_post 1 (POST (mkCommentForm "Hello")))
           (mkState (db sample_state) anonymous_session) eq_refl).
Defined.

(** ** Primary keys and unique columns *)

Lemma NoDup_snoc {A : Type} (l : list A) (x : A) :
  NoDup l -> ~ In x l -> NoDup (l ++ [x]).
Proof.
  intros Hl Hx. induction l as [|a l IH]; simpl.
  - constructor; [intros [] | constructor].
  - inversion Hl as [|a' l' Ha Hl']; subst. constructor.
    + intros Hin. apply in_app_or in Hin. destruct Hin as [Hin|[<-|[]]].
      * contradiction.
      * apply Hx. left. reflexivity.
    + apply IH; [exact Hl'|]. intros Hin. apply Hx. right. exact Hin.
Qed.

Lemma NoDup_map_filter {A B : Type} (f : A -> B) (g : A -> bool) (l : list A) :
  NoDup (map f l) -> NoDup (map f (filter g l)).
Proof.
  induction l as [|a l IH]; simpl; intros H; [constructor|].
  inversion H as [|b bs Hb Hbs]; subst.
  destruct (g a); simpl; [|apply IH; exact Hbs].
  constructor; [|apply IH; exact Hbs].
  intros Hin. apply Hb. apply in_map_iff in Hin. destruct Hin as [x [Hx Hin]].
  apply filter_In in Hin. rewrite <- Hx. apply in_map. tauto.
Qed.

Lemma map_id_orphan (post_id : Z) (cs : list Comment.t) :
  map Comment.id (map (orphan post_id) cs) = map Comment.id cs.
Proof.
  rewrite map_map. apply map_ext. intros c. apply orphan_keeps.
Qed.

Lemma email_not_in (e : string) (us : list User.t) :
  existsb (fun u => String.eqb (User.email u) e) us = false ->
  ~ In e (map User.email us).
Proof.
  intros H Hin. apply in_map_iff in Hin. destruct Hin as [u [Hu Hin]].
  apply Bool.not_true_iff_false in H. apply H. apply existsb_exists.
  exists u. split; [exact Hin|]. rewrite Hu. apply String.eqb_refl.
Qed.

Lemma title_not_in (t : string) (posts : list BlogPost.t) :
  existsb (fun p => String.eqb (BlogPost.title p) t) posts = false ->
  ~ In t (map BlogPost.title posts).
Proof.
  intros H Hin. apply in_map_iff in Hin. destruct Hin as [p [Hp Hin]].
  apply Bool.not_true_iff_false in H. apply H. apply existsb_exists.
  exists p. split; [exact Hin|]. rewrite Hp. apply String.eqb_refl.
Qed.

Lemma update_absent (post : BlogPost.t) (posts : list BlogPost.t) :
  ~ In (BlogPost.id post) (map BlogPost.id posts) ->
  map (fun p => if BlogPost.id p =? BlogPost.id post then post else p) posts = posts.
Proof.
  induction posts as [|a posts IH]; simpl; intros H; [reflexivity|].
  destruct (Z.eqb_spec (BlogPost.id a) (BlogPost.id post)) as [Ha|Ha].
  - exfalso. apply H. left. exact Ha.
  - f_equal. apply IH. intros Hin. apply H. right. exact Hin.
Qed.

Lemma NoDup_title_update (post : BlogPost.t) (posts : list BlogPost.t) :
  NoDup (map BlogPost.id posts) ->
  NoDup (map BlogPost.title posts) ->
  existsb (fun p => negb (BlogPost.id p =? BlogPost.id post)
                    && String.eqb (BlogPost.title p) (BlogPost.title post)) posts = false ->
  NoDup (map BlogPost.title
           (map (fun p => if BlogPost.id p =? BlogPost.id post then post else p) posts)).
Proof.
  induction posts as [|a posts IH]; simpl; intros Hid Htitle Hfree; [constructor|].
  inversion Hid as [|i ids Hi Hids]; subst. inversion Htitle as [|t ts Ht Hts]; subst.
  apply orb_false_iff in Hfree. destruct Hfree as [Ha Hfree].
  destruct (Z.eqb_spec (BlogPost.id a) (BlogPost.id post)) as [Heq|Hne].
  - rewrite update_absent by (rewrite <- Heq; exact Hi).
    constructor; [|exact Hts].
    intros Hin. apply in_map_iff in Hin. destruct Hin as [p [Hp Hin]].
    apply Bool.not_true_iff_false in Hfree. apply Hfree. apply existsb_exists.
    exists p. split; [exact Hin|]. apply andb_true_iff. split.
    + apply negb_true_iff. apply Z.eqb_neq. intros Hpid. apply Hi.
      rewrite Heq, <- Hpid. apply in_map. exact Hin.
    + rewrite Hp. apply String.eqb_refl.
  - simpl in Ha. constructor; [|apply IH; assumption].
    intros Hin. apply in_map_iff in Hin. destruct Hin as [q [Hq Hin]].
    apply in_map_iff in Hin. destruct Hin as [p [Hp Hin]].
    destruct (Z.eqb_spec (BlogPost.id p) (BlogPost.id post)) as [Hpid|Hpid].
    + subst q. apply String.eqb_neq in Ha. apply Ha. symmetry. exact Hq.
    + subst q. apply Ht. rewrite <- Hq. apply in_map. exact Hin.
Qed.

Section Keys.
Context {lib : Collaborators}.

Lemma handle_keys_unique (c : Call) (s : State) :
  keys_unique (db s) -> keys_unique (db (snd (handle c s))).
Proof.
  destruct s as [d [uid fl]]. unfold keys_unique.
  intros [Huid [Hemail [Hpid [Htitle Hcid]]]].
  destruct c; unfold_views; simpl; repeat break_match; simpl;
    repeat split;
    first
      [ assumption
      | rewrite map_app; simpl; apply NoDup_snoc;
        [ assumption
        | first [ apply next_id_fresh
                | apply email_not_in; assumption
                | apply title_not_in; assumption ] ]
      | match goal with
        | |- NoDup (map BlogPost.id (map (fun p => if _ then ?post else p) _)) =>
            rewrite (map_id_update post); assumption
        end
      | apply NoDup_map_filter; assumption
      | rewrite map_id_orphan; assumption
      | match goal with
        | |- NoDup (map _ (map (fun p => if _ then ?post else p) _)) =>
            apply (NoDup_title_update post); simpl; assumption
        end ].
Qed.

Lemma reachable_keys_unique (s : State) : reachable s -> keys_unique (db s).
Proof.
  induction 1 as [|c s Hs IH].
  - unfold keys_unique. simpl. repeat split; constructor.
  - apply handle_keys_unique. exact IH.
Qed.

(** X10.  In every reachable state no two users share an email and no
    two posts share a title: the registration check and the uncommitted
    500 of the post routes keep the two [unique=True] columns unique. *)
Theorem reachable_unique_columns (s : State) (Hs : reachable s) :
  NoDup (map User.email (users (db s))) /\ NoDup (map BlogPost.title (blog_posts (db s))).
Proof.
  destruct (reachable_keys_unique s Hs) as [_ [Hemail [_ [Htitle _]]]]. auto.
Qed.

(** X11.  In every reachable state the ids of the users, of the posts
    and of the comments are pairwise distinct, also after posts have been
    deleted and ids handed out again. *)
Theorem reachable_primary_keys (s : State) (Hs : reachable s) :
  NoDup (map User.id (users (db s)))
  /\ NoDup (map BlogPost.id (blog_posts (db s)))
  /\ NoDup (map Comment.id (comments (db s))).
Proof.
  destruct (reachable_keys_unique s Hs) as [Huid [_ [Hpid [_ Hcid]]]]. auto.
Qed.

End Keys.

Lemma reachable_unique_columns_witness :
  NoDup (map User.email (users (db sample_state_reader)))
  /\ NoDup (map BlogPost.title (blog_posts (db sample_state_reader))).
Proof.
  apply (reachable_unique_columns (lib := sample_lib) sample_state_reader).
  apply reachable_serve, reachable_serve, reachable_initial.
Defined.

Lemma reachable_primary_keys_witness :
  NoDup (map User.id (users (db sample_state_two_posts)))
  /\ NoDup (map BlogPost.id (blog_posts (db sample_state_two_posts)))
  /\ NoDup (map Comment.id (comments (db sample_state_two_posts))).
Proof.
  apply (reachable_primary_keys (lib := sample_lib) sample_state_two_posts).
  apply reachable_serve, reachable_serve, reachable_initial.
Defined.

(** ** Comments on a page *)

Lemma filter_snoc {A : Type} (f : A -> bool) (l : list A) (x : A) :
  filter f (l ++ [x]) = filter f l ++ (if f x then [x] else []).
Proof. rewrite filter_app. simpl. destruct (f x); reflexivity. Qed.

Lemma filter_orphan_other (post_id q : Z) (cs : list Comment.t) :
  q <> post_id ->
  filter (fun c => refers_to (Comment.post_id c) q) (map (orphan post_id) cs)
  = filter (fun c => refers_to (Comment.post_id c) q) cs.
Proof.
  intros Hq. induction cs as [|c cs IH]; simpl; [reflexivity|].
  unfold orphan at 1 2.
  destruct (refers_to (Comment.post_id c) post_id) eqn:E; simpl.
  - destruct (Comment.post_id c) as [k|]; simpl in *; [|discriminate].
    apply Z.eqb_eq in E. subst k.
    destruct (Z.eqb_spec post_id q); [congruence | exact IH].
  - destruct (refers_to (Comment.post_id c) q); [f_equal|]; exact IH.
Qed.

Lemma filter_orphan_same (post_id : Z) (cs : list Comment.t) :
  filter (fun c => refers_to (Comment.post_id c) post_id) (map (orphan post_id) cs) = [].
Proof.
  induction cs as [|c cs IH]; simpl; [reflexivity|].
  unfold orphan at 1 2.
  destruct (refers_to (Comment.post_id c) post_id) eqn:E; simpl; [exact IH|].
  rewrite E. exact IH.
Qed.

Lemma no_comment_on_fresh_id (d : Database) :
  integrity d ->
  filter (fun c => refers_to (Comment.post_id c) (next_id (post_ids d))) (comments d) = [].
Proof.
  intros [Hc _]. induction (comments d) as [|c cs IH]; simpl; [reflexivity|].
  assert (Hrest : forall c', In c' cs ->
            cleared_or_live_in (post_ids d) (Comment.post_id c') = true
            /\ live_in (user_ids d) (Comment.author_id c') = true).
  { intros c' Hin. apply Hc. right. exact Hin. }
  destruct (Hc c (or_introl eq_refl)) as [Hpost _].
  destruct (Comment.post_id c) as [k|] eqn:Ek; simpl in *.
  - apply live_in_spec in Hpost. destruct Hpost as [k' [Hk Hin]]. inversion Hk; subst k'.
    destruct (Z.eqb_spec k (next_id (post_ids d))) as [Heq|Hne].
    + exfalso. apply (next_id_fresh (post_ids d)). rewrite <- Heq. exact Hin.
    + apply IH. exact Hrest.
  - apply IH. exact Hrest.
Qed.

Section Pages.
Context {lib : Collaborators}.

(** X12.  Read after write: when a logged-in user submits a valid
    comment on an existing post, the page of that post fetched next shows
    the comments it showed before followed by the new one, and leaves the
    state alone. *)
Theorem comment_then_shown (s : State) (post_id user_id : Z) (form : CommentForm)
    (post : BlogPost.t) (u : User.t)
    (Hvalid : CommentForm_validate form = true)
    (Hpost : get_BlogPost post_id (db s) = Some post)
    (Hsession : session_user_id (session s) = Some user_id)
    (Huser : get_User user_id (db s) = Some u) :
  let s' := snd (handle (call_show_post post_id (POST form)) s) in
  handle (call_show_post post_id GET) s'
  = (render_template
       (post_html post None (Some u)
          (filter (fun c => refers_to (Comment.post_id c) post_id) (comments (db s))
           ++ [Comment.mk (next_id (map Comment.id (comments (db s))))
                          (Some user_id) (Some post_id) (comment form)])),
     s').
Proof.
  intros s'.
  assert (Hrun : s' = mkState (mkDatabase (users (db s)) (blog_posts (db s))
                        (comments (db s)
                         ++ [Comment.mk (next_id (map Comment.id (comments (db s))))
                                        (Some user_id) (Some post_id) (comment form)]))
                        (session s)).
  { unfold s'. unfold_views. unfold get_User, get_BlogPost in *.
    repeat first [ progress simpl | rewrite Hpost | rewrite Hvalid
                 | rewrite Hsession | rewrite Huser ].
    apply find_some in Huser. destruct Huser as [_ Hid]. apply Z.eqb_eq in Hid.
    rewrite Hid. reflexivity. }
  rewrite Hrun. unfold_views. unfold get_User, get_BlogPost in *.
  repeat first [ progress simpl | rewrite Hpost | rewrite Hsession | rewrite Huser ].
  rewrite filter_snoc. simpl. rewrite Z.eqb_refl. reflexivity.
Qed.

(** X13.  In a reachable state a post that has just been created has no
    comments on its page, even when its id was carried earlier by a post
    that had comments and was deleted. *)
Theorem new_post_has_no_comments (s : State) (today : date.t) (form : CreatePostForm)
    (admin : User.t)
    (Hs : reachable s)
    (Hvalid : CreatePostForm_validate form = true)
    (Hsession : session_user_id (session s) = Some 1)
    (Hadmin : get_User 1 (db s) = Some admin)
    (Hfresh : forall p, In p (blog_posts (db s)) -> BlogPost.title p <> form_title form) :
  let s' := snd (handle (call_add_new_post today (POST form)) s) in
  exists new_post,
    blog_posts (db s') = blog_posts (db s) ++ [new_post]
    /\ handle (call_show_post (BlogPost.id new_post) GET) s'
       = (render_template (post_html new_post None (Some admin) []), s').
Proof.
  intros s'.
  pose proof (title_fresh _ _ Hfresh) as Hfree.
  pose proof (no_comment_on_fresh_id (db s) (reachable_integrity s Hs)) as Hnone.
  destruct (get_User_In _ _ _ Hadmin) as [_ Hadmin_id].
  set (new_post := BlogPost.mk (next_id (post_ids (db s))) (Some 1) (form_title form)
                     (form_subtitle form) (strftime today "%B %d, %Y") (form_body form)
                     (form_img_url form)).
  assert (Hrun : s' = mkState (mkDatabase (users (db s)) (blog_posts (db s) ++ [new_post])
                                          (comments (db s)))
                              (session s)).
  { unfold s'. unfold_views. unfold get_User in *.
    repeat first [ progress simpl | rewrite Hsession | rewrite Hadmin
                 | rewrite Hadmin_id | rewrite Hvalid | rewrite Hfree ].
    reflexivity. }
  exists new_post. rewrite Hrun. split; [reflexivity|].
  unfold handle, respond, view, show_post, get_or_404, get_BlogPost, bind.
  cbn [db blog_posts]. rewrite find_snoc. unfold new_post at 1 2. cbn [BlogPost.id].
  unfold post_ids. rewrite find_next_id, Z.eqb_refl.
  unfold validate_on_submit, select_Comment_by_post, current_user, load_user,
    get_or_404, bind, ret. unfold get_User in Hadmin |- *.
  cbn [db session users comments submitted].
  rewrite Hsession, Hadmin.
  change (BlogPost.id new_post) with (next_id (post_ids (db s))).
  rewrite Hnone. reflexivity.
Qed.

End Pages.

Lemma comment_then_shown_witness :
  handle (lib := sample_lib) (call_show_post 1 GET)
         (snd (handle (lib := sample_lib)
                      (call_show_post 1 (POST (mkCommentForm "Second!")))
                      sample_state_reader))
  = (render_template
       (post_html (BlogPost.mk 1 (Some 1) "Blog Post 1" "The subtitle" "April 05, 2024"
                               "bla bla bla...." "https:img_url.com")
                  None
                  (Some (User.mk 2 "Reader" "reader@gmail.com" "pbkdf2$cmVhZA$abc"))
                  [Comment.mk 1 (Some 1) (Some 1) "First!";
                   Comment.mk 2 (Some 2) (Some 1) "Second!"]),
     snd (handle (lib := sample_lib)
                 (call_show_post 1 (POST (mkCommentForm "Second!")))
                 sample_state_reader)).
Proof.
  apply (comment_then_shown (lib := sample_lib) sample_state_reader 1 2
           (mkCommentForm "Second!")
           (BlogPost.mk 1 (Some 1) "Blog Post 1" "The subtitle" "April 05, 2024"
                        "bla bla bla...." "https:img_url.com")
           (User.mk 2 "Reader" "reader@gmail.com" "pbkdf2$cmVhZA$abc")
           eq_refl eq_refl eq_refl eq_refl).
Defined.

Lemma new_post_has_no_comments_witness :
  comments (db sample_state_deleted) = [Comment.mk 1 (Some 1) None "First!"]
  /\ exists new_post,
       blog_posts (db (snd (handle (lib := sample_lib)
                                   (call_add_new_post sample_today (POST sample_post_2))
                                   sample_state_deleted)))
       = blog_posts (db sample_state_deleted) ++ [new_post]
       /\ handle (lib := sample_lib) (call_show_post (BlogPost.id new_post) GET)
                 (snd (handle (lib := sample_lib)
                              (call_add_new_post sample_today (POST sample_post_2))
                              sample_state_deleted))
          = (render_template
               (post_html new_post None
                  (Some (User.mk 1 "Kyrylo Yefremov" "admin@gmail.com" "pbkdf2$c2FsdA$123"))
                  []),
             snd (handle (lib := sample_lib)
                         (call_add_new_post sample_today (POST sample_post_2))
                         sample_state_deleted)).
Proof.
  split; [reflexivity|].
  apply (new_post_has_no_comments (lib := sample_lib) sample_state_deleted sample_today
           sample_post_2
           (User.mk 1 "Kyrylo Yefremov" "admin@gmail.com" "pbkdf2$c2FsdA$123")).
  - apply reachable_serve, reachable_serve, reachable_initial.
  - reflexivity.
  - reflexivity.
  - reflexivity.
  - intros p Hin. vm_compute in Hin. contradiction.
Defined.

(** ** Accounts, round trip *)

Section RoundTrip.
Context {lib : Collaborators}.

(** X14.  A user who registers with a fresh email, logs out and logs in
    again with the same email and password is back in the state the
    registration left, provided the hash function verifies the password
    it hashed; with a password that the stored hash rejects the login is
    refused and nobody is logged in. *)
Theorem register_logout_login (s : State) (salt : string) (form : RegisterForm)
    (Hvalid : RegisterForm_validate form = true)
    (Hfresh : forall u, In u (users (db s)) -> User.email u <> reg_email form)
    (Hcheck : check_password_hash
                (generate_password_hash (reg_password form) "pbkdf2" 8 salt)
                (reg_password form) = true) :
  let s1 := snd (handle (call_register salt (POST form)) s) in
  let s2 := snd (handle call_logout s1) in
  session_user_id (session s2) = None
  /\ (LoginForm_validate (mkLoginForm (reg_email form) (reg_password form)) = true ->
      handle (call_login (POST (mkLoginForm (reg_email form) (reg_password form)))) s2
      = (redirect url_get_all_posts, s1))
  /\ (forall wrong,
        LoginForm_validate (mkLoginForm (reg_email form) wrong) = true ->
        check_password_hash
          (generate_password_hash (reg_password form) "pbkdf2" 8 salt) wrong = false ->
        handle (call_login (POST (mkLoginForm (reg_email form) wrong))) s2
        = (redirect url_login,
           mkState (db s2)
                   (mkSession None
                      (session_flashes (session s2)
                       ++ ["Incorrect password, please try again."])))).
Proof.
  intros s1 s2. destruct (email_fresh _ _ Hfresh) as [Hfind Hexists].
  set (new_user := User.mk (next_id (map User.id (users (db s)))) (reg_name form)
                     (reg_email form)
                     (generate_password_hash (reg_password form) "pbkdf2" 8 salt)).
  assert (H1 : s1 = mkState (mkDatabase (users (db s) ++ [new_user]) (blog_posts (db s))
                                        (comments (db s)))
                            (mkSession (Some (User.id new_user))
                                       (session_flashes (session s)))).
  { unfold s1. unfold_views. simpl. rewrite Hvalid, Hfind. simpl. rewrite Hexists.
    reflexivity. }
  assert (H2 : s2 = mkState (db s1) (mkSession None (session_flashes (session s)))).
  { unfold s2. rewrite H1. unfold handle, respond, view, logout, logout_user,
      current_user, load_user, get_or_404, get_User, bind, ret.
    cbn [db session session_user_id session_flashes users].
    rewrite find_snoc.
    destruct (find (fun u => User.id u =? User.id new_user) (users (db s)));
      simpl; [reflexivity | rewrite Z.eqb_refl; reflexivity]. }
  assert (Hlookup : find (fun u => String.eqb (User.email u) (reg_email form))
                         (users (db s1)) = Some new_user).
  { rewrite H1. cbn [db users]. rewrite find_snoc, Hfind. simpl.
    rewrite String.eqb_refl. reflexivity. }
  clearbody s1 s2. subst s2.
  split; [reflexivity|]. split.
  - intros Hlogin. unfold_views. simpl. rewrite Hlogin. simpl. rewrite Hlookup. simpl.
    rewrite Hcheck. rewrite H1. reflexivity.
  - intros wrong Hlogin Hwrong. unfold_views. simpl. rewrite Hlogin. simpl.
    rewrite Hlookup. simpl. rewrite Hwrong. reflexivity.
Qed.

End RoundTrip.

Lemma register_logout_login_witness :
  handle (lib := sample_lib) (call_login (POST (mkLoginForm "reader@gmail.com" "abc")))
         (snd (handle (lib := sample_lib) call_logout sample_state_reader))
  = (redirect url_get_all_posts, sample_state_reader)
  /\ handle (lib := sample_lib) (call_login (POST (mkLoginForm "reader@gmail.com" "abd")))
            (snd (handle (lib := sample_lib) call_logout sample_state_reader))
     = (redirect url_login,
        mkState (db sample_state_reader)
                (mkSession None ["Incorrect password, please try again."])).
Proof.
  assert (Hfresh : forall u,
             In u (users (db (snd (handle (lib := sample_lib) call_logout sample_state)))) ->
             User.email u <> reg_email sample_reader).
  { intros u Hin. vm_compute in Hin. destruct Hin as [<-|[]]. discriminate. }
  destruct (register_logout_login (lib := sample_lib)
              (snd (handle (lib := sample_lib) call_logout sample_state))
              "cmVhZA" sample_reader eq_refl Hfresh eq_refl) as [_ [Hright Hwrong]].
  split.
  - apply Hright. reflexivity.
  - apply (Hwrong "abd"); reflexivity.
Defined.

(** ** The admin's routes *)

Lemma title_taken (t : string) (posts : list BlogPost.t) (p : BlogPost.t) :
  In p posts -> BlogPost.title p = t ->
  existsb (fun q => String.eqb (BlogPost.title q) t) posts = true.
Proof.
  intros Hin Ht. apply existsb_exists. exists p. split; [exact Hin|].
  rewrite Ht. apply String.eqb_refl.
Qed.

Section AdminRoutes.
Context {lib : Collaborators}.

(** X15.  A valid new post whose title a stored post already carries is
    not created: the commit breaks the uniqueness of [title], the admin
    receives a 500 and the state is as before. *)
Theorem add_new_post_duplicate_title (s : State) (today : date.t)
    (form : CreatePostForm) (admin : User.t) (p : BlogPost.t)
    (Hvalid : CreatePostForm_validate form = true)
    (Hsession : session_user_id (session s) = Some 1)
    (Hadmin : get_User 1 (db s) = Some admin)
    (Hin : In p (blog_posts (db s)))
    (Htitle : BlogPost.title p = form_title form) :
  handle (call_add_new_post today (POST form)) s = (HTTPError 500, s).
Proof.
  pose proof (title_taken _ _ _ Hin Htitle) as Htaken.
  destruct (get_User_In _ _ _ Hadmin) as [_ Hid].
  unfold_views. unfold get_User in *.
  repeat first [ progress simpl | rewrite Hsession | rewrite Hadmin | rewrite Hid
               | rewrite Hvalid | rewrite Htaken ].
  reflexivity.
Qed.

(** X16.  Opening the edit page of an existing post as the admin (a GET)
    renders the post form filled with the stored title, subtitle, image
    URL and body of that post, marked as an edit, and changes nothing. *)
Theorem edit_post_prepopulated (s : State) (post_id : Z) (post : BlogPost.t)
    (admin : User.t)
    (Hsession : session_user_id (session s) = Some 1)
    (Hadmin : get_User 1 (db s) = Some admin)
    (Hpost : get_BlogPost post_id (db s) = Some post) :
  handle (call_edit_post post_id GET) s
  = (render_template
       (make_post_html
          (Some (mkCreatePostForm (BlogPost.title post) (BlogPost.subtitle post)
                                  (BlogPost.img_url post) (BlogPost.body post)))
          true),
     s).
Proof.
  destruct (get_User_In _ _ _ Hadmin) as [_ Hid].
  unfold_views. unfold get_User, get_BlogPost in *.
  repeat first [ progress simpl | rewrite Hsession | rewrite Hadmin | rewrite Hid
               | rewrite Hpost ].
  reflexivity.
Qed.

(** X17.  What deleting an existing post leaves alone: the users and the
    session are as before, every other post is found as before, the
    comments shown on every other post are the same, no comment is
    removed, and no comment refers to the deleted id any more. *)
Theorem delete_post_frame (s : State) (post_id : Z) (post : BlogPost.t)
    (admin : User.t)
    (Hsession : session_user_id (session s) = Some 1)
    (Hadmin : get_User 1 (db s) = Some admin)
    (Hpost : get_BlogPost post_id (db s) = Some post) :
  let s' := snd (handle (call_delete_post post_id) s) in
  users (db s') = users (db s)
  /\ session s' = session s
  /\ (forall q, q <> post_id -> get_BlogPost q (db s') = get_BlogPost q (db s))
  /\ (forall q, q <> post_id ->
        filter (fun c => refers_to (Comment.post_id c) q) (comments (db s'))
        = filter (fun c => refers_to (Comment.post_id c) q) (comments (db s)))
  /\ List.length (comments (db s')) = List.length (comments (db s))
  /\ filter (fun c => refers_to (Comment.post_id c) post_id) (comments (db s')) = [].
Proof.
  intros s'.
  destruct (get_User_In _ _ _ Hadmin) as [_ Hid].
  destruct (get_BlogPost_In _ _ _ Hpost) as [_ Hpid].
  assert (Hrun : s' = mkState (mkDatabase (users (db s))
                                 (filter (fun p => negb (BlogPost.id p =? post_id))
                                         (blog_posts (db s)))
                                 (map (orphan post_id) (comments (db s))))
                              (session s)).
  { unfold s'. unfold_views. unfold get_User, get_BlogPost in *.
    repeat first [ progress simpl | rewrite Hsession | rewrite Hadmin | rewrite Hid
                 | rewrite Hpost | rewrite Hpid ].
    reflexivity. }
  clearbody s'. subst s'. cbn [db session users comments blog_posts].
  split; [reflexivity|]. split; [reflexivity|]. split; [|split; [|split]].
  - intros q Hq. apply find_filter_other. exact Hq.
  - intros q Hq. apply filter_orphan_other. exact Hq.
  - apply length_map.
  - apply filter_orphan_same.
Qed.

(** X18.  A session whose stored id matches no user is answered 404 by
    every route that looks at the current user: the three admin routes,
    and a valid comment on an existing post; nothing is stored. *)
Theorem stale_session_not_found (s : State) (user_id : Z)
    (Hsession : session_user_id (session s) = Some user_id)
    (Hgone : get_User user_id (db s) = None) :
  (forall today req, handle (call_add_new_post today req) s = (HTTPError 404, s))
  /\ (forall post_id req, handle (call_edit_post post_id req) s = (HTTPError 404, s))
  /\ (forall post_id, handle (call_delete_post post_id) s = (HTTPError 404, s))
  /\ (forall post_id post form,
        get_BlogPost post_id (db s) = Some post ->
        CommentForm_validate form = true ->
        handle (call_show_post post_id (POST form)) s = (HTTPError 404, s)).
Proof.
  repeat split; intros; unfold_views; unfold get_User, get_BlogPost in *;
    repeat first [ progress simpl | rewrite Hsession | rewrite Hgone
                 | match goal with H : find _ _ = Some _ |- _ => rewrite H end
                 | match goal with H : CommentForm_validate _ = true |- _ => rewrite H end ];
    reflexivity.
Qed.

(** X19.  In every reachable state the current user resolves: the
    session is anonymous or names a stored user, so no route answers 404
    on account of the session. *)
Theorem reachable_current_user (s : State) (Hs : reachable s) :
  exists user, current_user s = (inl user, s)
               /\ (user = None <-> session_user_id (session s) = None)
               /\ (forall u, user = Some u ->
                     In u (users (db s))
                     /\ session_user_id (session s) = Some (User.id u)).
Proof.
  pose proof (reachable_session_live s Hs) as Hlive.
  unfold session_live in Hlive. unfold current_user, load_user, get_or_404, bind, ret.
  destruct (session_user_id (session s)) as [user_id|].
  - destruct Hlive as [u Hu]. rewrite Hu. exists (Some u).
    split; [reflexivity|]. split; [split; discriminate|].
    intros u' Hu'. inversion Hu'; subst u'.
    apply get_User_In in Hu. destruct Hu as [Hin Hid]. split; [exact Hin | congruence].
  - exists None. split; [reflexivity|]. split; [tauto | discriminate].
Qed.

End AdminRoutes.

Lemma add_new_post_duplicate_title_witness :
  handle (lib := sample_lib) (call_add_new_post sample_today (POST sample_post)) sample_state
  = (HTTPError 500, sample_state).
Proof.
  apply (add_new_post_duplicate_title (lib := sample_lib) sample_state sample_today
           sample_post
           (User.mk 1 "Kyrylo Yefremov" "admin@gmail.com" "pbkdf2$c2FsdA$123")
           (BlogPost.mk 1 (Some 1) "Blog Post 1" "The subtitle" "April 05, 2024"
                        "bla bla bla...." "https:img_url.com")
           eq_refl eq_refl eq_refl).
  - vm_compute. left. reflexivity.
  - reflexivity.
Defined.

Lemma edit_post_prepopulated_witness :
  handle (lib := sample_lib) (call_edit_post 1 GET) sample_state
  = (render_template
       (make_post_html
          (Some (mkCreatePostForm "Blog Post 1" "The subtitle" "https:img_url.com"
                                  "bla bla bla...."))
          true),
     sample_state).
Proof.
  apply (edit_post_prepopulated (lib := sample_lib) sample_state 1
           (BlogPost.mk 1 (Some 1) "Blog Post 1" "The subtitle" "April 05, 2024"
                        "bla bla bla...." "https:img_url.com")
           (User.mk 1 "Kyrylo Yefremov" "admin@gmail.com" "pbkdf2$c2FsdA$123")
           eq_refl eq_refl eq_refl).
Defined.

Lemma delete_post_frame_witness :
  get_BlogPost 1 (db (snd (handle (lib := sample_lib) (call_delete_post 2)
                                  sample_state_two_posts)))
  = get_BlogPost 1 (db sample_state_two_posts)
  /\ filter (fun c => refers_to (Comment.post_id c) 1)
            (comments (db (snd (handle (lib := sample_lib) (call_delete_post 2)
                                       sample_state_two_posts))))
     = filter (fun c => refers_to (Comment.post_id c) 1)
              (comments (db sample_state_two_posts)).
Proof.
  destruct (delete_post_frame (lib := sample_lib) sample_state_two_posts 2
              (BlogPost.mk 2 (Some 1) "Blog Post 2" "Another subtitle" "April 05, 2024"
                           "more text" "https:img_url.com/2")
              (User.mk 1 "Kyrylo Yefremov" "admin@gmail.com" "pbkdf2$c2FsdA$123")
              eq_refl eq_refl eq_refl) as [_ [_ [Hposts [Hcomments _]]]].
  split; [apply Hposts | apply Hcomments]; discriminate.
Defined.

Lemma stale_session_not_found_witness :
  handle (lib := sample_lib) (call_delete_post 1)
         (mkState (db sample_state) (mkSession (Some 9) []))
  = (HTTPError 404, mkState (db sample_state) (mkSession (Some 9) [])).
Proof.
  destruct (stale_session_not_found (lib := sample_lib)
              (mkState (db sample_state) (mkSession (Some 9) [])) 9 eq_refl eq_refl)
    as [_ [_ [Hdelete _]]].
  apply Hdelete.
Defined.

Lemma reachable_current_user_witness :
  exists user,
    current_user sample_state_reader = (inl user, sample_state_reader)
    /\ (user = None <-> session_user_id (session sample_state_reader) = None)
    /\ (forall u, user = Some u ->
          In u (users (db sample_state_reader))
          /\ session_user_id (session sample_state_reader) = Some (User.id u)).
Proof.
  apply (reachable_current_user (lib := sample_lib) sample_state_reader).
  apply reachable_serve, reachable_serve, reachable_initial.
Defined.

(** ** The order of registration *)

Section Registration.
Context {lib : Collaborators}.

(** X20.  In every reachable state the users carry the ids 1, 2, 3, ...
    in the order in which they registered, and the next registration
    will receive the number of stored users plus one. *)
Theorem reachable_user_ids_in_order (s : State) (Hs : reachable s) :
  (forall k u, nth_error (users (db s)) k = Some u -> User.id u = Z.of_nat (S k))
  /\ next_id (user_ids (db s)) = Z.of_nat (S (List.length (users (db s)))).
Proof.
  pose proof (reachable_users_sequential s Hs) as Hseq. split.
  - intros k u Hk.
    assert (Hid : nth_error (user_ids (db s)) k = Some (User.id u)).
    { unfold user_ids. rewrite nth_error_map, Hk. reflexivity. }
    rewrite Hseq in Hid. apply nth_error_sequential in Hid. rewrite Hid. f_equal.
  - rewrite (next_id_sequential _ Hseq). unfold user_ids. rewrite length_map. reflexivity.
Qed.

End Registration.

Lemma reachable_user_ids_in_order_witness :
  (forall k u, nth_error (users (db sample_state_reader)) k = Some u ->
               User.id u = Z.of_nat (S k))
  /\ next_id (user_ids (db sample_state_reader)) = 3.
Proof.
  apply (reachable_user_ids_in_order (lib := sample_lib) sample_state_reader).
  apply reachable_serve, reachable_serve, reachable_initial.
Defined.

Lemma users_append_only_witness :
  exists more,
    users (db (snd (handle (lib := sample_lib) (call_delete_post 1) sample_state)))
    = users (db sample_state) ++ more
    /\ (List.length more <= 1)%nat.
Proof.
  destruct (users_append_only (lib := sample_lib) (call_delete_post 1) sample_state)
    as [more [Husers [Hlen _]]].
  exists more. split; [exact Husers | exact Hlen].
Defined.

Lemma comments_kept_witness :
  exists new,
    In new (comments (db (snd (handle (lib := sample_lib) (call_delete_post 1)
                                      sample_state))))
    /\ Comment.id new = 1
    /\ Comment.author_id new = Some 1
    /\ Comment.text new = "First!".
Proof.
  destruct (comments_kept (lib := sample_lib) (call_delete_post 1) sample_state)
    as [_ Hkept].
  apply (Hkept (Comment.mk 1 (Some 1) (Some 1) "First!")).
  vm_compute. left. reflexivity.
Defined.
